(** * kancli: the board interaction controller, embedded and verified

    The repository holds three revisions of the terminal controller
    ([package main]) next to one copy of the [models] package (structs and
    SQL repositories) and the [db] package:

    - [WithBoard]: [src/main.go], the revision that keeps [m.board] as the
      source of truth and re-derives the per-column lists from it
      ([syncColumnData]);
    - [WithEdit]: [src/unnamed/part_000], first program, the revision with
      the edit form ([updateTask], key [e]) that patches the lists only;
    - [ListsOnly]: [src/unnamed/part_000], second program, the revision
      that patches the lists only and has no edit form.

    Everything the three share (data model, the SQL store behind the
    repositories, the list and text-input widgets) is declared once. *)

From Stdlib Require Import ZArith String List Lia Bool.
From stdpp Require Import base option list strings.

Local Open Scope Z_scope.

(** ** Go primitives *)

(** A Go [error] value: [nil] is [None]. *)
Definition error := option string.

(** [time.Time], as a number of clock ticks. *)
Definition Time := Z.

(** [len(s)] as a Go [int]. *)
Definition len {A} (s : list A) : Z := Z.of_nat (length s).

(** [s[i]] for a Go [int] index: [None] stands for the run-time panic
    "index out of range". *)
Definition at_index {A} (s : list A) (i : Z) : option A :=
  if i <? 0 then None else s !! Z.to_nat i.

(** [s[i] = x]; only used after [at_index s i] succeeded. *)
Definition set_index {A} (s : list A) (i : Z) (x : A) : list A :=
  <[Z.to_nat i := x]> s.

(** ** Data model ([package models]) *)

Module StatusColumn.
Record t := mk {
Id : Z;
BoardId : Z;
Name : string;
Position : Z;
Color : string
}.
End StatusColumn.

Module Task.
Record t := mk {
Id : Z;
BoardId : Z;
StatusColumnId : Z;
title : string;
description : string;
Position : Z;
CreatedAt : Time;
UpdatedAt : Time;
Priority : Z;
DueDate : option Time;
Assignee : string;
Tags : string
}.

(** The zero value [models.Task{}]. *)
Definition zero : t := mk 0 0 0 "" "" 0 0 0 0 None "" "".

Definition Title (t0 : t) : string := title t0.
Definition Description (t0 : t) : string := description t0.
Definition FilterValue (t0 : t) : string := title t0.

Definition SetTitle (s : string) (t0 : t) : t :=
mk (Id t0) (BoardId t0) (StatusColumnId t0) s (description t0)
 (Position t0) (CreatedAt t0) (UpdatedAt t0) (Priority t0)
 (DueDate t0) (Assignee t0) (Tags t0).

Definition SetDescription (s : string) (t0 : t) : t :=
mk (Id t0) (BoardId t0) (StatusColumnId t0) (title t0) s
 (Position t0) (CreatedAt t0) (UpdatedAt t0) (Priority t0)
 (DueDate t0) (Assignee t0) (Tags t0).

(** Field assignments [task.Id = v], [task.BoardId = v], ... *)
Definition set_Id (v : Z) (t0 : t) : t :=
mk v (BoardId t0) (StatusColumnId t0) (title t0) (description t0)
 (Position t0) (CreatedAt t0) (UpdatedAt t0) (Priority t0)
 (DueDate t0) (Assignee t0) (Tags t0).

Definition set_BoardId (v : Z) (t0 : t) : t :=
mk (Id t0) v (StatusColumnId t0) (title t0) (description t0)
 (Position t0) (CreatedAt t0) (UpdatedAt t0) (Priority t0)
 (DueDate t0) (Assignee t0) (Tags t0).

Definition set_StatusColumnId (v : Z) (t0 : t) : t :=
mk (Id t0) (BoardId t0) v (title t0) (description t0)
 (Position t0) (CreatedAt t0) (UpdatedAt t0) (Priority t0)
 (DueDate t0) (Assignee t0) (Tags t0).

Definition set_CreatedAt (v : Time) (t0 : t) : t :=
mk (Id t0) (BoardId t0) (StatusColumnId t0) (title t0) (description t0)
 (Position t0) v (UpdatedAt t0) (Priority t0)
 (DueDate t0) (Assignee t0) (Tags t0).

Definition set_UpdatedAt (v : Time) (t0 : t) : t :=
mk (Id t0) (BoardId t0) (StatusColumnId t0) (title t0) (description t0)
 (Position t0) (CreatedAt t0) v (Priority t0)
 (DueDate t0) (Assignee t0) (Tags t0).
End Task.

Module Board.
Record t := mk {
Id : Z;
Title : string;
Description : string;
CreatedAt : Time;
UpdatedAt : Time;
Columns : list StatusColumn.t;
Tasks : list Task.t
}.

Definition set_Id (v : Z) (b : t) : t :=
mk v (Title b) (Description b) (CreatedAt b) (UpdatedAt b) (Columns b) (Tasks b).

Definition set_stamps (v : Time) (b : t) : t :=
mk (Id b) (Title b) (Description b) v v (Columns b) (Tasks b).

Definition set_Columns (v : list StatusColumn.t) (b : t) : t :=
mk (Id b) (Title b) (Description b) (CreatedAt b) (UpdatedAt b) v (Tasks b).

Definition set_Tasks (v : list Task.t) (b : t) : t :=
mk (Id b) (Title b) (Description b) (CreatedAt b) (UpdatedAt b) (Columns b) v.

(** The zero value [models.Board{}]. *)
Definition zero : t := mk 0 "" "" 0 0 [] [].

(** [GetTasksByColumn]: the tasks of one column, in the order of
[b.Tasks]. *)
Definition GetTasksByColumn (columnId : Z) (b : t) : list Task.t :=
List.filter (fun task => Task.StatusColumnId task =? columnId) (Tasks b).

(** [GetColumnById]: the first column carrying the identifier. *)
Definition GetColumnById (columnId : Z) (b : t) : option StatusColumn.t :=
List.find (fun c => StatusColumn.Id c =? columnId) (Columns b).
End Board.

(** ** The SQL store behind the repositories

    Three tables as lists of rows in rowid order, each with the counter
    SQLite keeps for an [AUTOINCREMENT] key. *)

Record Store := mkStore {
  boards : list Board.t;            (* Columns and Tasks are not columns of the table: always [] *)
  status_columns : list StatusColumn.t;
  tasks : list Task.t;
  seq_boards : Z;
  seq_columns : Z;
  seq_tasks : Z
}.

Definition empty_store : Store := mkStore [] [] [] 0 0 0.

Definition set_tasks (rows : list Task.t) (s : Store) : Store :=
  mkStore (boards s) (status_columns s) rows (seq_boards s) (seq_columns s) (seq_tasks s).

(** The environment of one run: the store, the clock read by
    [time.Now()], and the outcomes of the coming gateway calls
    ([db.Exec], [db.Query], [db.QueryRow]) in order: [Some e] makes the
    call return error [e] and leaves the store as it is, [None] lets it go
    through; past the end of the script every call goes through. *)
Record World := mkWorld {
  db : Store;
  faults : list error;
  clock : Time
}.

Definition set_db (s : Store) (w : World) : World :=
  mkWorld s (faults w) (clock w).

(** Computations of the program: a state monad over [World]; [None] is a
    run-time panic. *)
Definition M (A : Type) : Type := World -> option (A * World).

Definition ret {A} (a : A) : M A := fun w => Some (a, w).

Definition bind {A B} (c : M A) (k : A -> M B) : M B :=
  fun w => match c w with
           | Some (a, w') => k a w'
           | None => None
           end.

Definition panic {A} : M A := fun _ => None.

Notation "'do' x <~ c ; k" := (bind c (fun x => k))
  (at level 10, x name, c at level 100, k at level 200, only parsing).
Notation "'do' ' p <~ c ; k" := (bind c (fun p => k))
  (at level 10, p pattern, c at level 100, k at level 200, only parsing).

(** An index expression inside a computation. *)
Definition index {A} (s : list A) (i : Z) : M A :=
  match at_index s i with
  | Some a => ret a
  | None => panic
  end.

Definition time_Now : M Time :=
  fun w => Some (clock w, mkWorld (db w) (faults w) (clock w + 1)).

(** One gateway round trip: the next scripted outcome. *)
Definition gateway : M error :=
  fun w => Some (hd None (faults w), mkWorld (db w) (tl (faults w)) (clock w)).

Definition get_db : M Store := fun w => Some (db w, w).
Definition put_db (s : Store) : M unit := fun w => Some (tt, set_db s w).

(** [ORDER BY]: a stable insertion sort (rows with equal keys stay in
    rowid order). *)
Fixpoint insert_by {A} (le : A -> A -> bool) (x : A) (l : list A) : list A :=
  match l with
  | [] => [x]
  | y :: l' => if le x y then x :: y :: l' else y :: insert_by le x l'
  end.

Definition order_by {A} (le : A -> A -> bool) (l : list A) : list A :=
  List.fold_right (insert_by le) [] l.

(** ** The repositories ([package models])

    A method with a pointer receiver argument ([Create(board *Board)])
    returns the struct as the call leaves it next to its [error]. A
    query returns [inl e] for [(nil, e)] and [inr rows] for [(rows, nil)].
    Every [db.Exec], [db.Query] and [db.QueryRow] is one [gateway] round
    trip; scanning a row written by this program does not fail. *)

Module BoardRepository.
Definition Create (board : Board.t) : M (error * Board.t) :=
do now <~ time_Now;
let board := Board.set_stamps now board in
do e <~ gateway;
match e with
| Some _ => ret (e, board)
| None =>
  do s <~ get_db;
  let id := seq_boards s + 1 in
  let row := Board.mk id (Board.Title board) (Board.Description board) now now [] [] in
  do _ <~ put_db (mkStore (boards s ++ [row]) (status_columns s) (tasks s)
                          id (seq_columns s) (seq_tasks s));
  ret (None, Board.set_Id id board)
end.

(** [ORDER BY created_at DESC] *)
Definition GetAll : M (string + list Board.t) :=
do e <~ gateway;
match e with
| Some e => ret (inl e)
| None =>
  do s <~ get_db;
  ret (inr (order_by (fun a b => Board.CreatedAt b <=? Board.CreatedAt a) (boards s)))
end.
End BoardRepository.

Module StatusColumnRepository.
Definition Create (column : StatusColumn.t) : M (error * StatusColumn.t) :=
do e <~ gateway;
match e with
| Some _ => ret (e, column)
| None =>
  do s <~ get_db;
  let id := seq_columns s + 1 in
  let row := StatusColumn.mk id (StatusColumn.BoardId column) (StatusColumn.Name column)
               (StatusColumn.Position column) (StatusColumn.Color column) in
  do _ <~ put_db (mkStore (boards s) (status_columns s ++ [row]) (tasks s)
                          (seq_boards s) id (seq_tasks s));
  ret (None, row)
end.

(** [WHERE board_id = ? ORDER BY position] *)
Definition GetByBoardId (boardId : Z) : M (string + list StatusColumn.t) :=
do e <~ gateway;
match e with
| Some e => ret (inl e)
| None =>
  do s <~ get_db;
  ret (inr (order_by (fun a b => StatusColumn.Position a <=? StatusColumn.Position b)
              (List.filter (fun c => StatusColumn.BoardId c =? boardId) (status_columns s))))
end.
End StatusColumnRepository.

Module TaskRepository.
Definition Create (task : Task.t) : M (error * Task.t) :=
do now <~ time_Now;
let task := Task.set_UpdatedAt now (Task.set_CreatedAt now task) in
do e <~ gateway;
match e with
| Some _ => ret (e, task)
| None =>
  do s <~ get_db;
  let id := seq_tasks s + 1 in
  let row := Task.set_Id id task in
  do _ <~ put_db (mkStore (boards s) (status_columns s) (tasks s ++ [row])
                          (seq_boards s) (seq_columns s) id);
  ret (None, row)
end.

(** [WHERE status_column_id = ? ORDER BY position] *)
Definition GetByColumnId (columnId : Z) : M (string + list Task.t) :=
do e <~ gateway;
match e with
| Some e => ret (inl e)
| None =>
  do s <~ get_db;
  ret (inr (order_by (fun a b => Task.Position a <=? Task.Position b)
              (List.filter (fun t => Task.StatusColumnId t =? columnId) (tasks s))))
end.

(** [WHERE board_id = ? ORDER BY status_column_id, position] *)
Definition GetByBoardId (boardId : Z) : M (string + list Task.t) :=
do e <~ gateway;
match e with
| Some e => ret (inl e)
| None =>
  do s <~ get_db;
  ret (inr (order_by
              (fun a b =>
                 (Task.StatusColumnId a <? Task.StatusColumnId b)
                 || ((Task.StatusColumnId a =? Task.StatusColumnId b)
                     && (Task.Position a <=? Task.Position b)))
              (List.filter (fun t => Task.BoardId t =? boardId) (tasks s))))
end.

(** The row [UPDATE tasks SET status_column_id = ?, title = ?, ...,
updated_at = ? WHERE id = ?] leaves in place of [row]: the id, the
board and the creation time are not in the [SET] list. *)
Definition updated_row (task row : Task.t) : Task.t :=
Task.mk (Task.Id row) (Task.BoardId row) (Task.StatusColumnId task)
(Task.title task) (Task.description task) (Task.Position task)
(Task.CreatedAt row) (Task.UpdatedAt task) (Task.Priority task)
(Task.DueDate task) (Task.Assignee task) (Task.Tags task).

Definition update_rows (task : Task.t) (rows : list Task.t) : list Task.t :=
List.map (fun row => if Task.Id row =? Task.Id task then updated_row task row else row) rows.

Definition Update (task : Task.t) : M (error * Task.t) :=
do now <~ time_Now;
let task := Task.set_UpdatedAt now task in
do e <~ gateway;
match e with
| Some _ => ret (e, task)
| None =>
  do s <~ get_db;
  do _ <~ put_db (set_tasks (update_rows task (tasks s)) s);
  ret (None, task)
end.

(** [DELETE FROM tasks WHERE id = ?] *)
Definition delete_rows (id : Z) (rows : list Task.t) : list Task.t :=
List.filter (fun row => negb (Task.Id row =? id)) rows.

Definition Delete (id : Z) : M error :=
do e <~ gateway;
match e with
| Some _ => ret e
| None =>
  do s <~ get_db;
  do _ <~ put_db (set_tasks (delete_rows id (tasks s)) s);
  ret None
end.
End TaskRepository.

(** [BoardRepository.GetById]: the board row, then its columns and its
    tasks; a missing row is the error of [Scan]. *)
Definition BoardRepository_GetById (id : Z) : M (string + Board.t) :=
  do e <~ gateway;
  match e with
  | Some e => ret (inl e)
  | None =>
      do s <~ get_db;
      match List.find (fun b => Board.Id b =? id) (boards s) with
      | None => ret (inl "sql: no rows in result set"%string)
      | Some row =>
          do cols <~ StatusColumnRepository.GetByBoardId id;
          match cols with
          | inl e => ret (inl e)
          | inr columns =>
              let board := Board.set_Columns columns row in
              do ts <~ TaskRepository.GetByBoardId id;
              match ts with
              | inl e => ret (inl e)
              | inr tasks => ret (inr (Board.set_Tasks tasks board))
              end
          end
      end
  end.

(** [NewTask]: priority 1 (low), position 0, both stamps at the time of
    the call. *)
Definition NewTask (title description : string) : M Task.t :=
  do now <~ time_Now;
  ret (Task.mk 0 0 0 title description 0 now now 1 None "" "").

(** Modelled from the spec: [Board.AddTask], which [src/main.go] calls and
    the [models] package under [src/] does not define. "appends to the
    Board's task collection". *)
Definition Board_AddTask (task : Task.t) (b : Board.t) : Board.t :=
  Board.set_Tasks (Board.Tasks b ++ [task]) b.

(** Modelled from the spec: [Board.UpdateTask], which [src/main.go] calls
    and the [models] package under [src/] does not define. "replaces the
    task with matching identifier in place. Fails silently (no-op) if
    identifier not found". *)
Fixpoint replace_task (task : Task.t) (ts : list Task.t) : list Task.t :=
  match ts with
  | [] => []
  | t0 :: ts' => if Task.Id t0 =? Task.Id task then task :: ts'
                 else t0 :: replace_task task ts'
  end.

Definition Board_UpdateTask (task : Task.t) (b : Board.t) : Board.t :=
  Board.set_Tasks (replace_task task (Board.Tasks b)) b.

(** Modelled from the spec: [Board.RemoveTask], which [src/main.go] calls
    and the [models] package under [src/] does not define. "removes the
    task with matching identifier". *)
Definition Board_RemoveTask (id : Z) (b : Board.t) : Board.t :=
  Board.set_Tasks (List.filter (fun t0 => negb (Task.Id t0 =? id)) (Board.Tasks b)) b.

(** ** The widgets ([bubbles/list], [bubbles/textinput], [tea.Cmd])

    The rendering side is a library outside the repository. The
    controller uses a list widget through its items, its cursor
    ([Index], [SelectedItem]) and its filter-entry flag, and a text input
    through its value and focus; what a widget does with a raw key
    ([Update]) is left open ([Widgets]). The cursor of a list is never
    negative. The list is the widget with no filter applied and its
    items on one page: the selected item is then the item at the cursor
    among all items, and the cursor stays where it is when the items
    change. Every list of a model was made by [list.New]; the zero
    [list.Model] values that [make] leaves are written out where the
    code meets them. *)

Inductive Cmd := Cmd_nil | Cmd_Quit | Cmd_widget.

Record list_Model := mk_list {
  list_Title : string;
  list_items : list Task.t;
  list_cursor : Z;
  list_filtering : bool;
  list_width : Z;
  list_height : Z
}.

Definition list_New (items : list Task.t) (width height : Z) : list_Model :=
  mk_list "List" items 0 false width height.

Definition list_set_Title (s : string) (l : list_Model) : list_Model :=
  mk_list s (list_items l) (list_cursor l) (list_filtering l) (list_width l) (list_height l).

Definition list_SetItems (items : list Task.t) (l : list_Model) : list_Model :=
  mk_list (list_Title l) items (list_cursor l) (list_filtering l) (list_width l) (list_height l).

Definition list_SetSize (width height : Z) (l : list_Model) : list_Model :=
  mk_list (list_Title l) (list_items l) (list_cursor l) (list_filtering l) width height.

Definition list_Index (l : list_Model) : Z := list_cursor l.

(** [SelectedItem] is [nil] when the cursor is past the items. *)
Definition list_SelectedItem (l : list_Model) : option Task.t :=
  at_index (list_items l) (list_Index l).

Definition list_SettingFilter (l : list_Model) : bool := list_filtering l.

(** [RemoveItem] does nothing past the end. *)
Definition list_RemoveItem (i : Z) (l : list_Model) : list_Model :=
  if (i <? 0) || (len (list_items l) <=? i) then l
  else list_SetItems (delete (Z.to_nat i) (list_items l)) l.

(** [InsertItem] appends past the end and clamps a negative index to 0. *)
Definition list_InsertItem (i : Z) (item : Task.t) (l : list_Model) : list_Model :=
  let n := Z.to_nat (Z.max 0 i) in
  list_SetItems (take n (list_items l) ++ item :: drop n (list_items l)) l.

(** [SetItem] assigns [m.items[index]]. *)
Definition list_SetItem (i : Z) (item : Task.t) (l : list_Model) : M list_Model :=
  do _ <~ index (list_items l) i;
  ret (list_SetItems (set_index (list_items l) i item) l).

Record textinput_Model := mk_textinput {
  ti_Prompt : string;
  ti_Placeholder : string;
  ti_CharLimit : Z;
  ti_Width : Z;
  ti_value : string;
  ti_focus : bool
}.

Definition textinput_New : textinput_Model := mk_textinput "> " "" 0 0 "" false.

Definition textinput_Value (t : textinput_Model) : string := ti_value t.

(** The widget counts its limit in runes. A string is its UTF-8 bytes:
    a byte [10xxxxxx] continues the rune begun before it, every other
    byte begins one (text that is well-formed UTF-8). *)
Definition continues_rune (a : Ascii.ascii) : bool :=
  let n := Z.of_nat (Ascii.nat_of_ascii a) in (128 <=? n) && (n <? 192).

Fixpoint rune_count (s : string) : nat :=
  match s with
  | EmptyString => 0%nat
  | String a s' => ((if continues_rune a then 0 else 1) + rune_count s')%nat
  end.

(** The first [n] runes of a string. *)
Fixpoint take_runes (n : nat) (s : string) : string :=
  match s with
  | EmptyString => EmptyString
  | String a s' =>
      if continues_rune a then String a (take_runes n s')
      else match n with
           | O => EmptyString
           | S n' => String a (take_runes n' s')
           end
  end.

(** [SetValue] keeps at most [CharLimit] runes when the limit is
    positive. *)
Definition textinput_SetValue (s : string) (t : textinput_Model) : textinput_Model :=
  let s := if (0 <? ti_CharLimit t) && (ti_CharLimit t <? Z.of_nat (rune_count s))
           then take_runes (Z.to_nat (ti_CharLimit t)) s else s in
  mk_textinput (ti_Prompt t) (ti_Placeholder t) (ti_CharLimit t) (ti_Width t) s (ti_focus t).

Definition textinput_Blur (t : textinput_Model) : textinput_Model :=
  mk_textinput (ti_Prompt t) (ti_Placeholder t) (ti_CharLimit t) (ti_Width t) (ti_value t) false.

(** [Focus] returns the cursor-blink command. *)
Definition textinput_Focus (t : textinput_Model) : textinput_Model * Cmd :=
  (mk_textinput (ti_Prompt t) (ti_Placeholder t) (ti_CharLimit t) (ti_Width t) (ti_value t) true,
   Cmd_widget).

(** What the widgets do with a key the controller forwards. *)
Class Widgets := {
  list_Update : string -> list_Model -> list_Model * Cmd;
  textinput_Update : string -> textinput_Model -> textinput_Model * Cmd
}.

(** ** Controller state ([package main]) *)

Inductive Mode := Normal | Insert.

(** [inputPane]: [taskId] and [listIndex] exist in the revision with the
    edit form only; the other two neither read nor write them. *)
Record inputPane := mk_inputPane {
  taskId : Z;
  listIndex : Z;
  titleInput : textinput_Model;
  descriptionInput : textinput_Model;
  pane_focused : Z
}.

Definition set_taskId (v : Z) (p : inputPane) : inputPane :=
  mk_inputPane v (listIndex p) (titleInput p) (descriptionInput p) (pane_focused p).
Definition set_listIndex (v : Z) (p : inputPane) : inputPane :=
  mk_inputPane (taskId p) v (titleInput p) (descriptionInput p) (pane_focused p).
Definition set_titleInput (v : textinput_Model) (p : inputPane) : inputPane :=
  mk_inputPane (taskId p) (listIndex p) v (descriptionInput p) (pane_focused p).
Definition set_descriptionInput (v : textinput_Model) (p : inputPane) : inputPane :=
  mk_inputPane (taskId p) (listIndex p) (titleInput p) v (pane_focused p).
Definition set_pane_focused (v : Z) (p : inputPane) : inputPane :=
  mk_inputPane (taskId p) (listIndex p) (titleInput p) (descriptionInput p) v.

Definition initInputPane : inputPane :=
  mk_inputPane 0 0
    (mk_textinput "Title: " "What to do..." 100 30 "" false)
    (mk_textinput "Description: " "Task description..." 500 90 "" false)
    0.

(** [Model]; the database handle and the three repositories are the
    [World]'s store. *)
Record Model := mkModel {
  board : Board.t;
  columns : list list_Model;
  pane : inputPane;
  width : Z;
  height : Z;
  focused : Z;
  mode : Mode;
  err : error
}.

Definition set_board (v : Board.t) (m : Model) : Model :=
  mkModel v (columns m) (pane m) (width m) (height m) (focused m) (mode m) (err m).
Definition set_columns (v : list list_Model) (m : Model) : Model :=
  mkModel (board m) v (pane m) (width m) (height m) (focused m) (mode m) (err m).
Definition set_pane (v : inputPane) (m : Model) : Model :=
  mkModel (board m) (columns m) v (width m) (height m) (focused m) (mode m) (err m).
Definition set_size (w h : Z) (m : Model) : Model :=
  mkModel (board m) (columns m) (pane m) w h (focused m) (mode m) (err m).
Definition set_focused (v : Z) (m : Model) : Model :=
  mkModel (board m) (columns m) (pane m) (width m) (height m) v (mode m) (err m).
Definition set_mode (v : Mode) (m : Model) : Model :=
  mkModel (board m) (columns m) (pane m) (width m) (height m) (focused m) v (err m).
Definition set_err (v : error) (m : Model) : Model :=
  mkModel (board m) (columns m) (pane m) (width m) (height m) (focused m) (mode m) v.

(** The [Model] literal of [NewModel], before [loadBoard]. *)
Definition initial_Model : Model :=
  mkModel Board.zero [] initInputPane 0 0 0 Normal None.

(** [msg.String() == k] *)
Definition key (msg k : string) : bool := String.eqb msg k.

(** [getSelectedTask], the same in the three revisions: the selected task
    of the focused column, or [None] for [(models.Task{}, false)]. *)
Definition getSelectedTask (m : Model) : option Task.t :=
  if (len (columns m) =? 0) || (focused m <? 0) || (len (columns m) <=? focused m)
  then None
  else match at_index (columns m) (focused m) with
       | Some l => list_SelectedItem l
       | None => None
       end.

(** The three default columns of [loadBoard]; the colours are the same
    strings in the three revisions. *)
Definition defaultColumns (boardId : Z) : list StatusColumn.t :=
  [ StatusColumn.mk 0 boardId "To Do" 0 "#ff6b6b";
    StatusColumn.mk 0 boardId "In Progress" 1 "#4ecdc4";
    StatusColumn.mk 0 boardId "Done" 2 "#45b7d1" ].

(** [for _, col := range cols { if err := columnRepo.Create(&col); err != nil { return err } }]:
    the identifiers go to the loop variable and are dropped. *)
Fixpoint create_columns (cols : list StatusColumn.t) : M error :=
  match cols with
  | [] => ret None
  | col :: cols' =>
      do '(e, _) <~ StatusColumnRepository.Create col;
      match e with
      | Some _ => ret e
      | None => create_columns cols'
      end
  end.

(** The arms the three revisions share word for word: in [handleInsert],
    [esc], [tab] and what follows the [switch] ([handleInsert_other]); in
    [handleNormal], the focus keys; and [handleListInput]. *)
Section SharedKeys.
Context `{Widgets}.

Definition handleInsert_esc (m : Model) : Model :=
let m := set_mode Normal m in
let m := set_pane (set_titleInput (textinput_Blur (titleInput (pane m))) (pane m)) m in
set_pane (set_descriptionInput (textinput_Blur (descriptionInput (pane m))) (pane m)) m.

Definition handleInsert_tab (m : Model) : Model * Cmd :=
if pane_focused (pane m) =? 0 then
let p := set_pane_focused 1 (pane m) in
let p := set_titleInput (textinput_Blur (titleInput p)) p in
let '(d, cmd) := textinput_Focus (descriptionInput p) in
(set_pane (set_descriptionInput d p) m, cmd)
else
let p := set_pane_focused 0 (pane m) in
let p := set_descriptionInput (textinput_Blur (descriptionInput p)) p in
let '(t, cmd) := textinput_Focus (titleInput p) in
(set_pane (set_titleInput t p) m, cmd).

Definition handleInsert_other (msg : string) (m : Model) : Model * Cmd :=
if pane_focused (pane m) =? 0 then
let '(t, cmd) := textinput_Update msg (titleInput (pane m)) in
(set_pane (set_titleInput t (pane m)) m, cmd)
else
let '(d, cmd) := textinput_Update msg (descriptionInput (pane m)) in
(set_pane (set_descriptionInput d (pane m)) m, cmd).

(** The success branch of [enter]: clear and blur both inputs, focus
the title field, back to [Normal]. *)
Definition clear_and_leave (m : Model) : Model :=
let p := pane m in
let p := set_titleInput (textinput_SetValue "" (titleInput p)) p in
let p := set_descriptionInput (textinput_SetValue "" (descriptionInput p)) p in
let p := set_titleInput (textinput_Blur (titleInput p)) p in
let p := set_descriptionInput (textinput_Blur (descriptionInput p)) p in
let p := set_pane_focused 0 p in
set_mode Normal (set_pane p m).

(** [handleListInput]: the focused list takes the key. *)
Definition handleListInput (msg : string) (m : Model) : M (Model * Cmd) :=
do l <~ index (columns m) (focused m);
let '(l', cmd) := list_Update msg l in
ret (set_columns (set_index (columns m) (focused m) l') m, cmd).

(** The head of the three [handleNormal]: quit and focus keys. *)
Definition focus_left (m : Model) : Model :=
if 0 <? focused m then set_focused (focused m - 1) m else m.

Definition focus_right (m : Model) : Model :=
if focused m <? len (columns m) - 1 then set_focused (focused m + 1) m else m.
End SharedKeys.

(** ** [src/main.go]: the board is the source of truth *)

Module WithBoard.
Section Controller.
Context `{Widgets}.

(** [syncColumnData]: column [i] of the board refills list [i], as far
as both exist. *)
Fixpoint sync_lists (b : Board.t) (cols : list StatusColumn.t) (ls : list list_Model)
: list list_Model :=
match cols, ls with
| column :: cols', l :: ls' =>
  list_SetItems (Board.GetTasksByColumn (StatusColumn.Id column) b) l
    :: sync_lists b cols' ls'
| _, _ => ls
end.

Definition syncColumnData (m : Model) : Model :=
set_columns (sync_lists (board m) (Board.Columns (board m)) (columns m)) m.

(** [rebuildColumns], over lists made by an earlier call: a list whose
title is not the column's name is made anew, the others keep their
cursor. *)
Fixpoint rebuild_lists (b : Board.t) (columnWidth columnHeight : Z)
(cols : list StatusColumn.t) (ls : list list_Model) : list list_Model :=
match cols, ls with
| column :: cols', l :: ls' =>
  let items := Board.GetTasksByColumn (StatusColumn.Id column) b in
  (if negb (key (list_Title l) (StatusColumn.Name column))
   then list_set_Title (StatusColumn.Name column)
          (list_New items (columnWidth - 2) columnHeight)
   else list_SetSize (columnWidth - 2) columnHeight (list_SetItems items l))
    :: rebuild_lists b columnWidth columnHeight cols' ls'
| _, _ => ls
end.

(** [rebuildColumns], over the lists [make] has just left: zero
[list.Model] values, with the empty title and no delegate. A column
whose name is not the empty title gets a list made anew; for a column
named "" the loop takes the other branch and calls [SetItems] on the
zero value, which panics on the missing delegate ([None]). *)
Fixpoint make_lists (b : Board.t) (columnWidth columnHeight : Z)
(cols : list StatusColumn.t) : option (list list_Model) :=
match cols with
| [] => Some []
| column :: cols' =>
  let items := Board.GetTasksByColumn (StatusColumn.Id column) b in
  if negb (key "" (StatusColumn.Name column))
  then match make_lists b columnWidth columnHeight cols' with
       | Some ls => Some (list_set_Title (StatusColumn.Name column)
                            (list_New items (columnWidth - 2) columnHeight) :: ls)
       | None => None
       end
  else None
end.

(** [rebuildColumns]; [None] is the panic of [make_lists]. *)
Definition rebuildColumns (width height : Z) (m : Model) : option Model :=
if len (Board.Columns (board m)) =? 0 then Some m
else
let columnWidth := Z.quot width (len (Board.Columns (board m))) in
let columnHeight := height - 10 in
if negb (len (columns m) =? len (Board.Columns (board m)))
then match make_lists (board m) columnWidth columnHeight (Board.Columns (board m)) with
     | Some ls => Some (set_columns ls m)
     | None => None
     end
else Some (set_columns (rebuild_lists (board m) columnWidth columnHeight
                          (Board.Columns (board m)) (columns m)) m).

Definition createTask (title description : string) (m : Model) : M (error * Model) :=
if len (Board.Columns (board m)) =? 0 then ret (Some "no columns available"%string, m)
else
do first <~ index (Board.Columns (board m)) 0;
do columnId <~ (if focused m <? len (Board.Columns (board m))
                then do c <~ index (Board.Columns (board m)) (focused m);
                     ret (StatusColumn.Id c)
                else ret (StatusColumn.Id first));
do task <~ NewTask title description;
let task := Task.set_BoardId (Board.Id (board m)) task in
let task := Task.set_StatusColumnId columnId task in
do '(e, task) <~ TaskRepository.Create task;
match e with
| Some _ => ret (e, m)
| None =>
    let m := set_board (Board_AddTask task (board m)) m in
    ret (None, syncColumnData m)
end.

Definition handleInsert (msg : string) (m : Model) : M (Model * Cmd) :=
if key msg "ctrl+c" then ret (m, Cmd_Quit)
else if key msg "esc" then ret (handleInsert_esc m, Cmd_nil)
else if key msg "tab" then ret (handleInsert_tab m)
else if key msg "enter" then
let title := textinput_Value (titleInput (pane m)) in
let description := textinput_Value (descriptionInput (pane m)) in
if negb (key title "") then
  do '(e, m) <~ createTask title description m;
  match e with
  | Some _ => ret (set_err e m, Cmd_nil)
  | None => ret (clear_and_leave m, Cmd_nil)
  end
else ret (m, Cmd_nil)
else ret (handleInsert_other msg m).

(** The arm of [<] ([dir = -1]) and of [>] ([dir = 1]) after its guard
on the focus. Both end in [m.focused++]. *)
Definition move_task (dir : Z) (m : Model) : M (Model * Cmd) :=
match getSelectedTask m with
| Some task =>
  do neighbour <~ index (Board.Columns (board m)) (focused m + dir);
  let task := Task.set_StatusColumnId (StatusColumn.Id neighbour) task in
  do '(e, task) <~ TaskRepository.Update task;
  match e with
  | Some _ =>
      do here <~ index (Board.Columns (board m)) (focused m);
      let task := Task.set_StatusColumnId (StatusColumn.Id here) task in
      ret (set_err e m, Cmd_nil)
  | None =>
      let m := set_board (Board_UpdateTask task (board m)) m in
      let m := syncColumnData m in
      ret (set_focused (focused m + 1) m, Cmd_nil)
  end
| None => ret (m, Cmd_nil)
end.

Definition delete_task (m : Model) : M (Model * Cmd) :=
match getSelectedTask m with
| Some task =>
  do e <~ TaskRepository.Delete (Task.Id task);
  match e with
  | Some _ => ret (set_err e m, Cmd_nil)
  | None =>
      let m := set_board (Board_RemoveTask (Task.Id task) (board m)) m in
      ret (syncColumnData m, Cmd_nil)
  end
| None => ret (m, Cmd_nil)
end.

Definition handleNormal (msg : string) (m : Model) : M (Model * Cmd) :=
if key msg "ctrl+c" || key msg "q" then ret (m, Cmd_Quit)
else if key msg "left" || key msg "h" then ret (focus_left m, Cmd_nil)
else if key msg "right" || key msg "l" then ret (focus_right m, Cmd_nil)
else if key msg "<" then
if 0 <? focused m then move_task (-1) m else ret (m, Cmd_nil)
else if key msg ">" then
if focused m <? len (columns m) - 1 then move_task 1 m else ret (m, Cmd_nil)
else if key msg "d" then delete_task m
else if key msg "i" then
do l <~ index (columns m) (focused m);
if negb (list_SettingFilter l) then
  let m := set_mode Insert m in
  let m := set_pane (set_pane_focused 0 (pane m)) m in
  let '(t, cmd) := textinput_Focus (titleInput (pane m)) in
  ret (set_pane (set_titleInput t (pane m)) m, cmd)
else handleListInput msg m
else handleListInput msg m.

(** [Update] on a key: the handler of the current mode. *)
Definition Update_key (msg : string) (m : Model) : M (Model * Cmd) :=
match mode m with
| Insert => handleInsert msg m
| Normal => handleNormal msg m
end.

(** [loadBoard]: the first board of the store, or a fresh default board
with its three columns written to the store. *)
Definition loadBoard (m : Model) : M (error * Model) :=
do r <~ BoardRepository.GetAll;
match r with
| inl e => ret (Some e, m)
| inr boards =>
  if len boards =? 0 then
    let board := Board.mk 0 "My Kanban Board" "Default board" 0 0 [] [] in
    do '(e, board) <~ BoardRepository.Create board;
    match e with
    | Some _ => ret (e, m)
    | None =>
        do e <~ create_columns (defaultColumns (Board.Id board));
        match e with
        | Some _ => ret (e, m)
        | None => ret (None, set_board board m)
        end
    end
  else
    do b0 <~ index boards 0;
    do r <~ BoardRepository_GetById (Board.Id b0);
    match r with
    | inl e => ret (Some e, m)
    | inr board => ret (None, set_board board m)
    end
end.

Definition NewModel : M Model :=
do '(e, m) <~ loadBoard initial_Model;
match e with
| Some _ => ret (set_err e m)
| None => ret m
end.
End Controller.
End WithBoard.

(** ** [src/unnamed/part_000]: the lists are patched in place

    What the two programs of [part_000] share word for word:
    [initColumnsFromDB], [createTask], the arms [<], [>] and [d] of
    [handleNormal], [loadBoard] and [NewModel]. Neither writes
    [m.board.Tasks] after [loadBoard]. *)

Module Lists.
Section Controller.
Context `{Widgets}.

(** The loop of [initColumnsFromDB] from column [i] on; an error
leaves the lists filled so far. *)
Fixpoint init_lists (i : Z) (cols : list StatusColumn.t) (ls : list list_Model)
: M (error * list list_Model) :=
match cols with
| [] => ret (None, ls)
| column :: cols' =>
  do r <~ TaskRepository.GetByColumnId (StatusColumn.Id column);
  match r with
  | inl e => ret (Some e, ls)
  | inr tasks =>
      let lm := list_set_Title (StatusColumn.Name column) (list_New tasks 0 0) in
      init_lists (i + 1) cols' (set_index ls i lm)
  end
end.

Definition initColumnsFromDB (m : Model) : M (error * Model) :=
if len (Board.Columns (board m)) =? 0 then ret (None, m)
else
let ls := List.map (fun _ => mk_list "" [] 0 false 0 0) (Board.Columns (board m)) in
do '(e, ls) <~ init_lists 0 (Board.Columns (board m)) ls;
ret (e, set_columns ls m).

Definition createTask (title description : string) (m : Model) : M (error * Model) :=
if len (Board.Columns (board m)) =? 0 then ret (Some "no columns available"%string, m)
else
do first <~ index (Board.Columns (board m)) 0;
do columnId <~ (if focused m <? len (Board.Columns (board m))
                then do c <~ index (Board.Columns (board m)) (focused m);
                     ret (StatusColumn.Id c)
                else ret (StatusColumn.Id first));
do task <~ NewTask title description;
let task := Task.set_BoardId (Board.Id (board m)) task in
let task := Task.set_StatusColumnId columnId task in
do '(e, task) <~ TaskRepository.Create task;
match e with
| Some _ => ret (e, m)
| None =>
    do l <~ index (columns m) (focused m);
    ret (None, set_columns (set_index (columns m) (focused m)
                              (list_InsertItem 0 task l)) m)
end.

(** The arm of [<] ([dir = -1], ending in [m.focused--]) and of [>]
([dir = 1], ending in [m.focused++]) after its guard on the focus. *)
Definition move_task (dir : Z) (m : Model) : M (Model * Cmd) :=
match getSelectedTask m with
| Some task =>
  do neighbour <~ index (Board.Columns (board m)) (focused m + dir);
  let task := Task.set_StatusColumnId (StatusColumn.Id neighbour) task in
  do '(e, task) <~ TaskRepository.Update task;
  match e with
  | Some _ =>
      do here <~ index (Board.Columns (board m)) (focused m);
      let task := Task.set_StatusColumnId (StatusColumn.Id here) task in
      ret (set_err e m, Cmd_nil)
  | None =>
      do l <~ index (columns m) (focused m);
      let m := set_columns (set_index (columns m) (focused m)
                              (list_RemoveItem (list_Index l) l)) m in
      do l' <~ index (columns m) (focused m + dir);
      let m := set_columns (set_index (columns m) (focused m + dir)
                              (list_InsertItem 0 task l')) m in
      ret (set_focused (focused m + dir) m, Cmd_nil)
  end
| None => ret (m, Cmd_nil)
end.

Definition delete_task (m : Model) : M (Model * Cmd) :=
match getSelectedTask m with
| Some task =>
  do e <~ TaskRepository.Delete (Task.Id task);
  match e with
  | Some _ => ret (set_err e m, Cmd_nil)
  | None =>
      do l <~ index (columns m) (focused m);
      ret (set_columns (set_index (columns m) (focused m)
                          (list_RemoveItem (list_Index l) l)) m, Cmd_nil)
  end
| None => ret (m, Cmd_nil)
end.

(** [loadBoard]: as in [src/main.go], and the fresh board gets the
columns read back from the store ("Load columns we just created
into board state"). *)
Definition loadBoard (m : Model) : M (error * Model) :=
do r <~ BoardRepository.GetAll;
match r with
| inl e => ret (Some e, m)
| inr boards =>
  if len boards =? 0 then
    let board := Board.mk 0 "My Kanban Board" "Default board" 0 0 [] [] in
    do '(e, board) <~ BoardRepository.Create board;
    match e with
    | Some _ => ret (e, m)
    | None =>
        do e <~ create_columns (defaultColumns (Board.Id board));
        match e with
        | Some _ => ret (e, m)
        | None =>
            do r <~ StatusColumnRepository.GetByBoardId (Board.Id board);
            match r with
            | inl e => ret (Some e, m)
            | inr cols => ret (None, set_board (Board.set_Columns cols board) m)
            end
        end
    end
  else
    do b0 <~ index boards 0;
    do r <~ BoardRepository_GetById (Board.Id b0);
    match r with
    | inl e => ret (Some e, m)
    | inr board => ret (None, set_board board m)
    end
end.

Definition NewModel : M Model :=
do '(e, m) <~ loadBoard initial_Model;
let m := match e with Some _ => set_err e m | None => m end in
match err m with
| None =>
  do '(e, m) <~ initColumnsFromDB m;
  match e with
  | Some _ => ret (set_err e m)
  | None => ret m
  end
| Some _ => ret m
end.
End Controller.
End Lists.

(** *** First program of [part_000]: with the edit form *)

Module WithEdit.
Section Controller.
Context `{Widgets}.

Definition updateTask (title description : string) (m : Model) : M (error * Model) :=
match getSelectedTask m with
| Some task =>
  let task := Task.SetTitle title task in
  let task := Task.SetDescription description task in
  do '(e, task) <~ TaskRepository.Update task;
  match e with
  | Some _ =>
      do here <~ index (Board.Columns (board m)) (focused m);
      let task := Task.set_StatusColumnId (StatusColumn.Id here) task in
      ret (e, m)
  | None =>
      do l <~ index (columns m) (focused m);
      do l <~ list_SetItem (listIndex (pane m)) task l;
      let m := set_columns (set_index (columns m) (focused m) l) m in
      ret (None, set_pane (set_listIndex (-1) (pane m)) m)
  end
| None => ret (None, m)
end.

Definition handleInsert (msg : string) (m : Model) : M (Model * Cmd) :=
if key msg "ctrl+c" then ret (m, Cmd_Quit)
else if key msg "esc" then ret (handleInsert_esc m, Cmd_nil)
else if key msg "tab" then ret (handleInsert_tab m)
else if key msg "enter" then
let title := textinput_Value (titleInput (pane m)) in
let description := textinput_Value (descriptionInput (pane m)) in
do '(e, m) <~ (if negb (taskId (pane m) =? -1)
               then updateTask title description m
               else if negb (key title "")
                    then Lists.createTask title description m
                    else ret (None, m));
match e with
| Some _ => ret (set_err e m, Cmd_nil)
| None => ret (clear_and_leave m, Cmd_nil)
end
else ret (handleInsert_other msg m).

Definition handleNormal (msg : string) (m : Model) : M (Model * Cmd) :=
if key msg "ctrl+c" || key msg "q" then ret (m, Cmd_Quit)
else if key msg "left" || key msg "h" then ret (focus_left m, Cmd_nil)
else if key msg "right" || key msg "l" then ret (focus_right m, Cmd_nil)
else if key msg "<" then
if 0 <? focused m then Lists.move_task (-1) m else ret (m, Cmd_nil)
else if key msg ">" then
if focused m <? len (columns m) - 1 then Lists.move_task 1 m else ret (m, Cmd_nil)
else if key msg "d" then Lists.delete_task m
else if key msg "e" then
match getSelectedTask m with
| Some task =>
    let p := pane m in
    let p := set_titleInput (textinput_SetValue (Task.Title task) (titleInput p)) p in
    let p := set_descriptionInput
               (textinput_SetValue (Task.Description task) (descriptionInput p)) p in
    let m := set_mode Insert (set_pane p m) in
    let p := set_pane_focused 0 (pane m) in
    let p := set_taskId (Task.Id task) p in
    do l <~ index (columns m) (focused m);
    let p := set_listIndex (list_Index l) p in
    let '(t, cmd) := textinput_Focus (titleInput p) in
    ret (set_pane (set_titleInput t p) m, cmd)
| None => ret (m, Cmd_nil)
end
else if key msg "i" then
do l <~ index (columns m) (focused m);
if negb (list_SettingFilter l) then
  let m := set_mode Insert m in
  let p := set_taskId (-1) (pane m) in
  let p := set_listIndex (-1) p in
  let p := set_pane_focused 0 p in
  let '(t, cmd) := textinput_Focus (titleInput p) in
  ret (set_pane (set_titleInput t p) m, cmd)
else handleListInput msg m
else handleListInput msg m.

Definition Update_key (msg : string) (m : Model) : M (Model * Cmd) :=
match mode m with
| Insert => handleInsert msg m
| Normal => handleNormal msg m
end.
End Controller.
End WithEdit.

(** *** Second program of [part_000]: no edit form *)

Module ListsOnly.
Section Controller.
Context `{Widgets}.

Definition handleInsert (msg : string) (m : Model) : M (Model * Cmd) :=
if key msg "ctrl+c" then ret (m, Cmd_Quit)
else if key msg "esc" then ret (handleInsert_esc m, Cmd_nil)
else if key msg "tab" then ret (handleInsert_tab m)
else if key msg "enter" then
let title := textinput_Value (titleInput (pane m)) in
let description := textinput_Value (descriptionInput (pane m)) in
if negb (key title "") then
  do '(e, m) <~ Lists.createTask title description m;
  match e with
  | Some _ => ret (set_err e m, Cmd_nil)
  | None => ret (clear_and_leave m, Cmd_nil)
  end
else ret (m, Cmd_nil)
else ret (handleInsert_other msg m).

Definition handleNormal (msg : string) (m : Model) : M (Model * Cmd) :=
if key msg "ctrl+c" || key msg "q" then ret (m, Cmd_Quit)
else if key msg "left" || key msg "h" then ret (focus_left m, Cmd_nil)
else if key msg "right" || key msg "l" then ret (focus_right m, Cmd_nil)
else if key msg "<" then
if 0 <? focused m then Lists.move_task (-1) m else ret (m, Cmd_nil)
else if key msg ">" then
if focused m <? len (columns m) - 1 then Lists.move_task 1 m else ret (m, Cmd_nil)
else if key msg "d" then Lists.delete_task m
else if key msg "i" then
do l <~ index (columns m) (focused m);
if negb (list_SettingFilter l) then
  let m := set_mode Insert m in
  let m := set_pane (set_pane_focused 0 (pane m)) m in
  let '(t, cmd) := textinput_Focus (titleInput (pane m)) in
  ret (set_pane (set_titleInput t (pane m)) m, cmd)
else handleListInput msg m
else handleListInput msg m.

Definition Update_key (msg : string) (m : Model) : M (Model * Cmd) :=
match mode m with
| Insert => handleInsert msg m
| Normal => handleNormal msg m
end.
End Controller.
End ListsOnly.

(** ** Sessions

    The event loop hands the keys to [Update] one at a time and stops at
    [tea.Quit]. *)

Fixpoint run (step : string -> Model -> M (Model * Cmd)) (keys : list string) (m : Model)
  : M Model :=
  match keys with
  | [] => ret m
  | k :: keys' =>
      do '(m', cmd) <~ step k m;
      match cmd with
      | Cmd_Quit => ret m'
      | _ => run step keys' m'
      end
  end.

(** The task-to-column mapping of a collection of tasks: the column
    identifier carried by the task with identifier [id]. *)
Definition column_of (id : Z) (ts : list Task.t) : option Z :=
  Task.StatusColumnId <$> List.find (fun t0 => Task.Id t0 =? id) ts.

(** The identifiers of the tasks of a collection. *)
Definition task_ids (ts : list Task.t) : list Z := List.map Task.Id ts.

(** Widgets for the worked sessions: a text input appends the key it
    gets, a list ignores it. *)
Definition typing_widgets : Widgets :=
  {| list_Update := fun _ l => (l, Cmd_nil);
     textinput_Update := fun k t => (textinput_SetValue (ti_value t +:+ k) t, Cmd_nil) |}.

(** A first start: an empty store, every gateway call goes through. *)
Definition fresh_world : World := mkWorld empty_store [] 1000.

(** [src/main.go] started a second time on the store its first start
    left, the window sized once, then the keys. *)
Definition main_session (keys : list string) : option (Model * World) :=
  (do _ <~ WithBoard.NewModel;
   do m <~ WithBoard.NewModel;
   match WithBoard.rebuildColumns 120 40 m with
   | Some m' => run (WithBoard.Update_key (H := typing_widgets)) keys m'
   | None => panic
   end) fresh_world.

(** The programs of [part_000], first start, then the keys. *)
Definition edit_session (keys : list string) : option (Model * World) :=
  (do m <~ Lists.NewModel;
   run (WithEdit.Update_key (H := typing_widgets)) keys m) fresh_world.

Definition lists_session (keys : list string) : option (Model * World) :=
  (do m <~ Lists.NewModel;
   run (ListsOnly.Update_key (H := typing_widgets)) keys m) fresh_world.

(** The programs of [part_000] started again on the store a session left:
    [loadBoard] now reads the tasks into [m.board.Tasks]. *)
Definition restart (w : World) (step : string -> Model -> M (Model * Cmd))
    (keys : list string) : option (Model * World) :=
  (do m <~ Lists.NewModel; run step keys m) w.

(** * Statements *)

(** The outcome scripted for the next gateway call. *)
Definition outcome (w : World) : error := hd None (faults w).

(** The world once a repository call that reads the clock once and makes
    one round trip is over, the store being [s]. *)
Definition after_call (s : Store) (w : World) : World :=
  mkWorld s (tl (faults w)) (clock w + 1).

(** What a handler of [Normal] mode owes a move whose update fails with
    [e]: the model is the one before but for the error shown, and the
    store is the one before. *)
Definition rolls_back (handle : string -> Model -> M (Model * Cmd))
    (msg : string) (m : Model) (w : World) (e : string) : Prop :=
  exists m' w',
    handle msg m w = Some ((m', Cmd_nil), w')
    /\ board m' = board m
    /\ columns m' = columns m
    /\ focused m' = focused m
    /\ err m' = Some e
    /\ db w' = db w.

(** A move is attempted: the key is [<] off the leftmost column or [>]
    off the rightmost one. *)
Definition move_attempted (msg : string) (m : Model) : Prop :=
  (msg = "<"%string /\ 0 < focused m) \/
  (msg = ">"%string /\ focused m < len (columns m) - 1).

(** The focus is a column index. *)
Definition focus_in_range (m : Model) : Prop := 0 <= focused m < len (columns m).

(** The board and the store carry the same column for every task. *)
Definition agree (m : Model) (w : World) : Prop :=
  forall id, column_of id (Board.Tasks (board m)) = column_of id (tasks (db w)).

(** Every gateway call to come goes through. *)
Definition all_succeed (w : World) : Prop := Forall (fun f => f = None) (faults w).

(** A move key. *)
Definition is_move (k : string) : Prop := k = "<"%string \/ k = ">"%string.

(** The state of [src/main.go] between two moves: one list per board
    column, the board and the store in agreement, no fault to come. *)
Definition synced (m : Model) (w : World) : Prop :=
  len (Board.Columns (board m)) = len (columns m) /\ agree m w /\ all_succeed w.

(** The store a session of [part_000] leaves: one task, in the middle
    column. *)
Definition one_task_world : World :=
  match edit_session ["l"; "i"; "a"; "enter"] with
  | Some (_, w) => w
  | None => fresh_world
  end.

(** Both programs of [part_000] are started on that store, where the
    board read by [loadBoard] and the store agree on the task (column 2
    for task 1); the task is moved left with [<] and the update goes
    through. *)
Definition board_left_behind (step : string -> Model -> M (Model * Cmd)) : Prop :=
  match restart one_task_world step ["l"], restart one_task_world step ["l"; "<"] with
  | Some (m, w), Some (m', w') =>
      column_of 1 (Board.Tasks (board m)) = Some 2
      /\ column_of 1 (tasks (db w)) = Some 2
      /\ err m' = None
      /\ List.map (fun l => task_ids (list_items l)) (columns m') = [[1]; []; []]
      /\ column_of 1 (tasks (db w')) = Some 1
      /\ column_of 1 (Board.Tasks (board m')) = Some 2
  | _, _ => False
  end.

(** Both programs of [part_000] are started on the store holding task 1
    in column 2; the task is selected and deleted with [d], and the
    delete goes through. *)
Definition deleted_task_stays_in_board (step : string -> Model -> M (Model * Cmd)) : Prop :=
  match restart one_task_world step ["l"], restart one_task_world step ["l"; "d"] with
  | Some (m, w), Some (m', w') =>
      (Task.Id <$> getSelectedTask m) = Some 1
      /\ task_ids (tasks (db w)) = [1]
      /\ err m' = None
      /\ task_ids (tasks (db w')) = []
      /\ List.map (fun l => task_ids (list_items l)) (columns m') = [[]; []; []]
      /\ task_ids (Board.Tasks (board m')) = [1]
      /\ task_ids (Board.GetTasksByColumn 2 (board m')) = [1]
  | _, _ => False
  end.

(** Names and positions of columns, in order. *)
Definition names_positions (cols : list StatusColumn.t) : list (string * Z) :=
  List.map (fun c => (StatusColumn.Name c, StatusColumn.Position c)) cols.

(** The task that [updateTask] hands to [TaskRepository.Update] and, once
    the update went through, puts in the list: the selected task with the
    two fields of the form, stamped by [Update] at time [now]. *)
Definition edited (title description : string) (now : Time) (task : Task.t) : Task.t :=
  Task.set_UpdatedAt now (Task.SetDescription description (Task.SetTitle title task)).

(** Two tasks equal in every field but, possibly, title and description. *)
Definition same_but_text (a b : Task.t) : Prop :=
  Task.Id a = Task.Id b /\ Task.BoardId a = Task.BoardId b
  /\ Task.StatusColumnId a = Task.StatusColumnId b
  /\ Task.Position a = Task.Position b /\ Task.CreatedAt a = Task.CreatedAt b
  /\ Task.UpdatedAt a = Task.UpdatedAt b
  /\ Task.Priority a = Task.Priority b /\ Task.DueDate a = Task.DueDate b
  /\ Task.Assignee a = Task.Assignee b /\ Task.Tags a = Task.Tags b.

(** Two tasks equal in every field but, possibly, title, description and
    the time of the last update. *)
Definition same_but_text_and_stamp (a b : Task.t) : Prop :=
  Task.Id a = Task.Id b /\ Task.BoardId a = Task.BoardId b
  /\ Task.StatusColumnId a = Task.StatusColumnId b
  /\ Task.Position a = Task.Position b /\ Task.CreatedAt a = Task.CreatedAt b
  /\ Task.Priority a = Task.Priority b /\ Task.DueDate a = Task.DueDate b
  /\ Task.Assignee a = Task.Assignee b /\ Task.Tags a = Task.Tags b.

(** The form is open on an existing task: [e] was pressed on [task], the
    selected item of the focused list [l], at the cursor. *)
Definition editing (m : Model) (task : Task.t) (l : list_Model) : Prop :=
  mode m = Insert
  /\ taskId (pane m) <> -1
  /\ getSelectedTask m = Some task
  /\ at_index (columns m) (focused m) = Some l
  /\ listIndex (pane m) = list_Index l
  /\ len (Board.Columns (board m)) = len (columns m).

(** C7 as the specification states it: a failed update of an edit
    submission shows the error and puts the controller back in [Normal]. *)
Definition failed_edit_returns_to_Normal : Prop :=
  forall (W : Widgets) (m : Model) (w : World) (e : string) (task : Task.t) (l : list_Model),
    editing m task l -> outcome w = Some e ->
    exists m' cmd w',
      WithEdit.handleInsert "enter" m w = Some ((m', cmd), w')
      /\ err m' = Some e /\ mode m' = Normal.

(** C8 as the specification states it: after an edit submission that
    went through, the row written to the store and the task in the
    updated list differ from the task before in title and description
    only. *)
Definition edit_changes_text_only : Prop :=
  forall (W : Widgets) (m : Model) (w : World) (task : Task.t) (l : list_Model),
    editing m task l -> outcome w = None ->
    exists m' cmd w' task',
      WithEdit.handleInsert "enter" m w = Some ((m', cmd), w')
      /\ getSelectedTask m' = Some task'
      /\ tasks (db w') = TaskRepository.update_rows task' (tasks (db w))
      /\ same_but_text task task'.

(** The state for the two counterexamples: a task "a" is made in the
    middle column, [e] opens the form on it, and "b" is typed after the
    title. *)
Definition form_open : option (Model * World) :=
  edit_session ["l"; "i"; "a"; "enter"; "e"; "b"].

Definition form_model : Model :=
  match form_open with Some (m, _) => m | None => initial_Model end.

Definition form_world : World :=
  match form_open with Some (_, w) => w | None => fresh_world end.

Definition form_list : list_Model :=
  match at_index (columns form_model) (focused form_model) with
  | Some l => l
  | None => list_New [] 0 0
  end.

Definition form_task : Task.t :=
  match getSelectedTask form_model with Some t0 => t0 | None => Task.zero end.

(** The same world with the next gateway call failing. *)
Definition failing (e : string) (w : World) : World :=
  mkWorld (db w) [Some e] (clock w).

(** The model a session of the first program of [part_000] leaves with
    that store: [Normal] mode, focus 1, task 1 selected. *)
Definition selected_model : Model :=
  match edit_session ["l"; "i"; "a"; "enter"] with
  | Some (m, _) => m
  | None => initial_Model
  end.

Definition selected_task : Task.t :=
  match getSelectedTask selected_model with Some t0 => t0 | None => Task.zero end.



(** ** Statements of the further properties *)

(** One list per board column, and the focus on one of them: the state
    [NewModel] of [part_000] leaves when the board has columns. *)
Definition well_formed (m : Model) : Prop :=
  len (Board.Columns (board m)) = len (columns m) /\ focus_in_range m.

(** The frame of a key that is not a submission: whatever it does to the
    form and the mode, the board, the lists, the focus, the error shown
    and the whole world are the ones before. *)
Definition touches_the_form_only (handle : string -> Model -> M (Model * Cmd))
    (msg : string) (m : Model) (w : World) : Prop :=
  exists m' cmd,
    handle msg m w = Some ((m', cmd), w)
    /\ board m' = board m /\ columns m' = columns m
    /\ focused m' = focused m /\ err m' = err m.

(** A key that does nothing at all. *)
Definition ignored (handle : string -> Model -> M (Model * Cmd))
    (msg : string) (m : Model) (w : World) : Prop :=
  handle msg m w = Some ((m, Cmd_nil), w).

(** A submission that shows error [e] and changes nothing else, in the
    model or in the store. *)
Definition refused (handle : string -> Model -> M (Model * Cmd))
    (m : Model) (w : World) (e : string) : Prop :=
  exists w', handle "enter"%string m w = Some ((set_err (Some e) m, Cmd_nil), w')
             /\ db w' = db w.

(** The primary keys of the task table: no two rows share an identifier,
    and none is past the [AUTOINCREMENT] counter. *)
Definition keys_sound (s : Store) : Prop :=
  List.NoDup (task_ids (tasks s)) /\ Forall (fun id => id <= seq_tasks s) (task_ids (tasks s)).

(** [Task.GetStatusColumn]: the board's column with the task's column
    identifier, [None] for [nil]. *)
Definition Task_GetStatusColumn (task : Task.t) (b : Board.t) : option StatusColumn.t :=
  Board.GetColumnById (Task.StatusColumnId task) b.

(** [Board.GetColumnByPosition]: the first column at the position. *)
Definition Board_GetColumnByPosition (position : Z) (b : Board.t) : option StatusColumn.t :=
  List.find (fun c => StatusColumn.Position c =? position) (Board.Columns b).

(** The texts of the two fields of the form. *)
Definition form_texts (m : Model) : string * string :=
  (textinput_Value (titleInput (pane m)), textinput_Value (descriptionInput (pane m))).

(** [esc] then [i]: the form is left and opened again for a creation. *)
Definition leave_and_reopen (handleInsert handleNormal : string -> Model -> M (Model * Cmd))
    (m : Model) : M Model :=
  do '(m1, _) <~ handleInsert "esc"%string m;
  do '(m2, _) <~ handleNormal "i"%string m1;
  ret m2.

(** The form left with [esc] and opened again shows the text it held. *)
Definition text_kept (reopen : Model -> M Model) (m : Model) (w : World) : Prop :=
  exists m', reopen m w = Some (m', w)
             /\ mode m' = Insert
             /\ form_texts m' = form_texts m
             /\ board m' = board m /\ columns m' = columns m.

(** The models and worlds of the worked instances. *)
Definition start_model : Model :=
  match Lists.NewModel fresh_world with Some (m, _) => m | None => initial_Model end.

Definition start_world : World :=
  match Lists.NewModel fresh_world with Some (_, w) => w | None => fresh_world end.

Definition typed_model : Model :=
  match edit_session ["l"; "i"; "a"] with Some (m, _) => m | None => initial_Model end.

Definition main_model : Model :=
  match main_session [] with Some (m, _) => m | None => initial_Model end.

Definition no_columns_model : Model :=
  set_pane (set_taskId (-1)
              (set_titleInput (textinput_SetValue "a" (titleInput initInputPane))
                 initInputPane)) initial_Model.


Definition created_row : Task.t :=
  match TaskRepository.Create Task.zero one_task_world with
  | Some ((_, row), _) => row
  | None => Task.zero
  end.

Definition created_world : World :=
  match TaskRepository.Create Task.zero one_task_world with
  | Some (_, w) => w
  | None => fresh_world
  end.

(** * Proofs *)

(** ** Facts about the primitives *)

Lemma at_index_Some {A} (s : list A) (i : Z) :
  0 <= i < len s -> exists a, at_index s i = Some a.
Proof.
  intros [Hlo Hhi]. unfold at_index, len in *.
  destruct (Z.ltb_spec i 0); [lia|].
  destruct (lookup_lt_is_Some_2 s (Z.to_nat i)) as [a Ha]; [lia|]. eauto.
Qed.

Lemma at_index_bounds {A} (s : list A) (i : Z) (a : A) :
  at_index s i = Some a -> 0 <= i < len s.
Proof.
  unfold at_index, len. destruct (Z.ltb_spec i 0); [discriminate|].
  intros Hl. apply lookup_lt_Some in Hl. lia.
Qed.

Lemma getSelectedTask_focus (m : Model) (task : Task.t) :
  getSelectedTask m = Some task -> 0 <= focused m < len (columns m).
Proof.
  unfold getSelectedTask. intros Hsel.
  destruct (Z.eqb_spec (len (columns m)) 0); [discriminate|].
  destruct (Z.ltb_spec (focused m) 0); [discriminate|].
  destruct (Z.leb_spec (len (columns m)) (focused m)); [discriminate|]. lia.
Qed.

Lemma getSelectedTask_list (m : Model) (task : Task.t) :
  getSelectedTask m = Some task ->
  exists l, at_index (columns m) (focused m) = Some l /\ list_SelectedItem l = Some task.
Proof.
  intros Hsel. pose proof (getSelectedTask_focus _ _ Hsel) as Hf.
  unfold getSelectedTask in Hsel.
  destruct (Z.eqb_spec (len (columns m)) 0); [discriminate|].
  destruct (Z.ltb_spec (focused m) 0); [discriminate|].
  destruct (Z.leb_spec (len (columns m)) (focused m)); [discriminate|].
  cbn in Hsel. destruct (at_index (columns m) (focused m)) as [l|]; [eauto|discriminate].
Qed.

Lemma Update_fails (task : Task.t) (w : World) (e : string) :
  outcome w = Some e ->
  TaskRepository.Update task w
  = Some ((Some e, Task.set_UpdatedAt (clock w) task), after_call (db w) w).
Proof.
  unfold outcome, TaskRepository.Update, bind, time_Now, gateway. cbn.
  intros ->. reflexivity.
Qed.

Lemma Update_succeeds (task : Task.t) (w : World) :
  outcome w = None ->
  let task' := Task.set_UpdatedAt (clock w) task in
  TaskRepository.Update task w
  = Some ((None, task'),
          after_call (set_tasks (TaskRepository.update_rows task' (tasks (db w))) (db w)) w).
Proof.
  unfold outcome, TaskRepository.Update, bind, time_Now, gateway. cbn.
  intros ->. reflexivity.
Qed.

Lemma Delete_fails (id : Z) (w : World) (e : string) :
  outcome w = Some e ->
  TaskRepository.Delete id w = Some (Some e, mkWorld (db w) (tl (faults w)) (clock w)).
Proof.
  unfold outcome, TaskRepository.Delete, bind, gateway. cbn. intros ->. reflexivity.
Qed.

Lemma Delete_succeeds (id : Z) (w : World) :
  outcome w = None ->
  TaskRepository.Delete id w
  = Some (None, mkWorld (set_tasks (TaskRepository.delete_rows id (tasks (db w))) (db w))
                  (tl (faults w)) (clock w)).
Proof.
  unfold outcome, TaskRepository.Delete, bind, gateway. cbn. intros ->. reflexivity.
Qed.

Arguments TaskRepository.Update : simpl never.
Arguments TaskRepository.Delete : simpl never.
Arguments TaskRepository.Create : simpl never.

(** ** Failed moves *)

Section FailedMove.
Context `{Widgets}.
Variables (m : Model) (w : World) (e : string) (task : Task.t).
Hypothesis Hsel : getSelectedTask m = Some task.
Hypothesis Hcols : len (Board.Columns (board m)) = len (columns m).
Hypothesis Hfail : outcome w = Some e.

Lemma WithBoard_move_fails (dir : Z) :
0 <= focused m + dir < len (columns m) ->
exists w', WithBoard.move_task dir m w = Some ((set_err (Some e) m, Cmd_nil), w')
           /\ db w' = db w.
Proof.
intros Hdir. pose proof (getSelectedTask_focus _ _ Hsel) as Hf.
destruct (at_index_Some (Board.Columns (board m)) (focused m + dir)) as [c Hc]; [lia|].
destruct (at_index_Some (Board.Columns (board m)) (focused m)) as [c' Hc']; [lia|].
unfold WithBoard.move_task. rewrite Hsel. unfold bind, index. rewrite Hc. cbn.
rewrite (Update_fails _ _ e Hfail). cbn. rewrite Hc'. cbn. eauto.
Qed.

Lemma Lists_move_fails (dir : Z) :
0 <= focused m + dir < len (columns m) ->
exists w', Lists.move_task dir m w = Some ((set_err (Some e) m, Cmd_nil), w')
           /\ db w' = db w.
Proof.
intros Hdir. pose proof (getSelectedTask_focus _ _ Hsel) as Hf.
destruct (at_index_Some (Board.Columns (board m)) (focused m + dir)) as [c Hc]; [lia|].
destruct (at_index_Some (Board.Columns (board m)) (focused m)) as [c' Hc']; [lia|].
unfold Lists.move_task. rewrite Hsel. unfold bind, index. rewrite Hc. cbn.
rewrite (Update_fails _ _ e Hfail). cbn. rewrite Hc'. cbn. eauto.
Qed.
End FailedMove.

(** C2. A move-left or move-right whose persistence update fails leaves
    the board (so the column identifier of every task in it), the lists
    and the focused column index as they were, shows the error, and
    leaves the store as it was; in each of the three revisions. *)
Theorem failed_move_changes_nothing `{Widgets} (msg : string) (m : Model) (w : World)
    (e : string) (task : Task.t) :
  move_attempted msg m ->
  getSelectedTask m = Some task ->
  len (Board.Columns (board m)) = len (columns m) ->
  outcome w = Some e ->
  rolls_back WithBoard.handleNormal msg m w e
  /\ rolls_back WithEdit.handleNormal msg m w e
  /\ rolls_back ListsOnly.handleNormal msg m w e.
Proof.
  intros Hmove Hsel Hcols Hfail.
  pose proof (getSelectedTask_focus _ _ Hsel) as Hf.
  unfold rolls_back, WithBoard.handleNormal, WithEdit.handleNormal, ListsOnly.handleNormal.
  destruct Hmove as [[-> Hlt]|[-> Hlt]]; cbn.
  - apply Z.ltb_lt in Hlt as Hb. rewrite Hb.
    destruct (WithBoard_move_fails m w e task Hsel Hcols Hfail (-1)) as (w1 & -> & ?); [lia|].
    destruct (Lists_move_fails m w e task Hsel Hcols Hfail (-1)) as (w2 & -> & ?); [lia|].
    repeat split; eexists _, _; (split; [reflexivity|auto]).
  - apply Z.ltb_lt in Hlt as Hb. rewrite Hb.
    destruct (WithBoard_move_fails m w e task Hsel Hcols Hfail 1) as (w1 & -> & ?); [lia|].
    destruct (Lists_move_fails m w e task Hsel Hcols Hfail 1) as (w2 & -> & ?); [lia|].
    repeat split; eexists _, _; (split; [reflexivity|auto]).
Qed.

(** ** The focused column index *)

Lemma bind_Some {A B} (c : M A) (k : A -> M B) (w : World) (r : B * World) :
  bind c k w = Some r -> exists a w1, c w = Some (a, w1) /\ k a w1 = Some r.
Proof.
  unfold bind. destruct (c w) as [[a w1]|]; [eauto|discriminate].
Qed.

Lemma index_Some {A} (s : list A) (i : Z) (w : World) (r : A * World) :
  index s i w = Some r -> at_index s i = Some (fst r) /\ snd r = w.
Proof.
  unfold index. destruct (at_index s i); cbn; [|discriminate].
  intros [= <-]. auto.
Qed.

Lemma len_set_index {A} (s : list A) (i : Z) (x : A) : len (set_index s i x) = len s.
Proof. unfold len, set_index. now rewrite length_insert. Qed.

(** Decompose a run [c w = Some r] of a computation built with [bind],
    [index] and [ret]. *)
Ltac unbind H :=
  repeat match type of H with
    | bind _ _ _ = Some _ =>
        let a := fresh "a" in let w1 := fresh "w" in
        let H1 := fresh "Hc" in
        apply bind_Some in H; destruct H as (a & w1 & H1 & H)
    | ret _ _ = Some _ => unfold ret in H
    | panic _ = Some _ => discriminate H
    | None = Some _ => discriminate H
    | (let '(_, _) := ?p in _) _ = Some _ => destruct p
    | (match ?e with Some _ => _ | None => _ end) _ = Some _ => destruct e eqn:?
    | (if ?b then _ else _) _ = Some _ => destruct b eqn:?
    end.

Section Focus.
Context `{Widgets}.

Lemma focus_left_in_range (m : Model) :
focus_in_range m -> focus_in_range (focus_left m) /\ columns (focus_left m) = columns m.
Proof.
unfold focus_in_range, focus_left. destruct (Z.ltb_spec 0 (focused m)); cbn; split; auto; lia.
Qed.

Lemma focus_right_in_range (m : Model) :
focus_in_range m -> focus_in_range (focus_right m).
Proof.
unfold focus_in_range, focus_right.
destruct (Z.ltb_spec (focused m) (len (columns m) - 1)); cbn; lia.
Qed.

Lemma handleListInput_in_range (msg : string) (m m' : Model) (cmd : Cmd) (w w' : World) :
focus_in_range m -> handleListInput msg m w = Some ((m', cmd), w') -> focus_in_range m'.
Proof.
unfold focus_in_range, handleListInput. intros Hf Hr. unbind Hr.
destruct (list_Update msg a). unbind Hr. injection Hr as <- <- <-. cbn.
now rewrite len_set_index.
Qed.

(** In [part_000] a move shifts the focus by [dir], to the column the
  task went to. *)
Lemma Lists_move_focus (dir : Z) (m m' : Model) (cmd : Cmd) (w w' : World) :
Lists.move_task dir m w = Some ((m', cmd), w') ->
len (columns m') = len (columns m)
/\ (focused m' = focused m \/
    focused m' = focused m + dir /\ 0 <= focused m + dir < len (columns m)).
Proof.
unfold Lists.move_task. intros Hr.
destruct (getSelectedTask m) as [task|]; unbind Hr;
  injection Hr as <- <- <-; cbn; rewrite ?len_set_index; auto.
split; [reflexivity|]. right. split; [reflexivity|].
match goal with
| Hi : index (columns (set_columns _ _)) _ _ = Some _ |- _ =>
    apply index_Some in Hi as [Hi _]; cbn in Hi; apply at_index_bounds in Hi;
    now rewrite len_set_index in Hi
end.
Qed.

Lemma Lists_delete_focus (m m' : Model) (cmd : Cmd) (w w' : World) :
Lists.delete_task m w = Some ((m', cmd), w') ->
len (columns m') = len (columns m) /\ focused m' = focused m.
Proof.
unfold Lists.delete_task. intros Hr.
destruct (getSelectedTask m) as [task|]; unbind Hr;
  injection Hr as <- <- <-; cbn; rewrite ?len_set_index; auto.
Qed.

(** The focus stays a column index under every key of [Normal] mode,
  in both programs of [part_000]. *)
Lemma WithEdit_focus_in_range (msg : string) (m m' : Model) (cmd : Cmd) (w w' : World) :
focus_in_range m -> WithEdit.handleNormal msg m w = Some ((m', cmd), w') ->
focus_in_range m'.
Proof.
intros Hf Hr. unfold WithEdit.handleNormal in Hr.
destruct (key msg "ctrl+c" || key msg "q"); [injection Hr as <- <- <-; exact Hf|].
destruct (key msg "left" || key msg "h");
  [injection Hr as <- <- <-; now apply focus_left_in_range|].
destruct (key msg "right" || key msg "l");
  [injection Hr as <- <- <-; now apply focus_right_in_range|].
destruct (key msg "<").
{ destruct (Z.ltb_spec 0 (focused m)); [|injection Hr as <- <- <-; exact Hf].
  apply Lists_move_focus in Hr. unfold focus_in_range in *. lia. }
destruct (key msg ">").
{ destruct (Z.ltb_spec (focused m) (len (columns m) - 1)); [|injection Hr as <- <- <-; exact Hf].
  apply Lists_move_focus in Hr. unfold focus_in_range in *. lia. }
destruct (key msg "d").
{ apply Lists_delete_focus in Hr. unfold focus_in_range in *. lia. }
destruct (key msg "e").
{ destruct (getSelectedTask m); unbind Hr; injection Hr as <- <- <-; exact Hf. }
destruct (key msg "i"); [|now apply (handleListInput_in_range msg m m' cmd w w')].
unbind Hr.
- injection Hr as <- <- <-. exact Hf.
- apply index_Some in Hc as [_ Hw]. cbn in Hw. subst.
  now apply (handleListInput_in_range msg m m' cmd w w').
Qed.

Lemma ListsOnly_focus_in_range (msg : string) (m m' : Model) (cmd : Cmd) (w w' : World) :
focus_in_range m -> ListsOnly.handleNormal msg m w = Some ((m', cmd), w') ->
focus_in_range m'.
Proof.
intros Hf Hr. unfold ListsOnly.handleNormal in Hr.
destruct (key msg "ctrl+c" || key msg "q"); [injection Hr as <- <- <-; exact Hf|].
destruct (key msg "left" || key msg "h");
  [injection Hr as <- <- <-; now apply focus_left_in_range|].
destruct (key msg "right" || key msg "l");
  [injection Hr as <- <- <-; now apply focus_right_in_range|].
destruct (key msg "<").
{ destruct (Z.ltb_spec 0 (focused m)); [|injection Hr as <- <- <-; exact Hf].
  apply Lists_move_focus in Hr. unfold focus_in_range in *. lia. }
destruct (key msg ">").
{ destruct (Z.ltb_spec (focused m) (len (columns m) - 1)); [|injection Hr as <- <- <-; exact Hf].
  apply Lists_move_focus in Hr. unfold focus_in_range in *. lia. }
destruct (key msg "d").
{ apply Lists_delete_focus in Hr. unfold focus_in_range in *. lia. }
destruct (key msg "i"); [|now apply (handleListInput_in_range msg m m' cmd w w')].
unbind Hr.
- injection Hr as <- <- <-. exact Hf.
- apply index_Some in Hc as [_ Hw]. cbn in Hw. subst.
  now apply (handleListInput_in_range msg m m' cmd w w').
Qed.
End Focus.

(** ** Successful moves *)

Section Moves.
Context `{Widgets}.

(** In [src/main.go] a move that goes through rewrites the task in the
  board, refills the lists from the board, and adds one to the focus
  whatever the direction. *)
Lemma WithBoard_move_succeeds (dir : Z) (m : Model) (w : World)
  (task : Task.t) (neighbour : StatusColumn.t) :
getSelectedTask m = Some task ->
at_index (Board.Columns (board m)) (focused m + dir) = Some neighbour ->
outcome w = None ->
let task' := Task.set_UpdatedAt (clock w)
               (Task.set_StatusColumnId (StatusColumn.Id neighbour) task) in
WithBoard.move_task dir m w
= Some ((set_focused (focused m + 1)
           (WithBoard.syncColumnData (set_board (Board_UpdateTask task' (board m)) m)),
         Cmd_nil),
        after_call (set_tasks (TaskRepository.update_rows task' (tasks (db w))) (db w)) w).
Proof.
intros Hsel Hn Hok. unfold WithBoard.move_task. rewrite Hsel.
unfold bind, index. rewrite Hn. cbn.
rewrite (Update_succeeds _ _ Hok). reflexivity.
Qed.

(** In [part_000] it takes the task out of the focused list, puts it
  first in the neighbour's, and moves the focus there. *)
Lemma Lists_move_succeeds (dir : Z) (m : Model) (w : World)
  (task : Task.t) (neighbour : StatusColumn.t) (l l' : list_Model) :
getSelectedTask m = Some task ->
at_index (Board.Columns (board m)) (focused m + dir) = Some neighbour ->
at_index (columns m) (focused m) = Some l ->
at_index (set_index (columns m) (focused m) (list_RemoveItem (list_Index l) l))
  (focused m + dir) = Some l' ->
outcome w = None ->
let task' := Task.set_UpdatedAt (clock w)
               (Task.set_StatusColumnId (StatusColumn.Id neighbour) task) in
Lists.move_task dir m w
= Some ((set_focused (focused m + dir)
           (set_columns
              (set_index
                 (set_index (columns m) (focused m) (list_RemoveItem (list_Index l) l))
                 (focused m + dir) (list_InsertItem 0 task' l')) m),
         Cmd_nil),
        after_call (set_tasks (TaskRepository.update_rows task' (tasks (db w))) (db w)) w).
Proof.
intros Hsel Hn Hl Hl' Hok. unfold Lists.move_task. rewrite Hsel.
unfold bind, index. rewrite Hn. cbn.
rewrite (Update_succeeds _ _ Hok). cbn. rewrite Hl. cbn. rewrite Hl'. reflexivity.
Qed.

(** So in [part_000] the focus follows a task moved left. *)
Lemma Lists_move_left_focus (m : Model) (w : World) (task : Task.t) :
0 < focused m ->
getSelectedTask m = Some task ->
len (Board.Columns (board m)) = len (columns m) ->
outcome w = None ->
exists m' w',
  WithEdit.handleNormal "<" m w = Some ((m', Cmd_nil), w')
  /\ ListsOnly.handleNormal "<" m w = Some ((m', Cmd_nil), w')
  /\ focused m' = focused m - 1.
Proof.
intros Hpos Hsel Hcols Hok.
pose proof (getSelectedTask_focus _ _ Hsel) as Hf.
destruct (getSelectedTask_list _ _ Hsel) as (l & Hl & _).
destruct (at_index_Some (Board.Columns (board m)) (focused m + -1)) as [c Hc]; [lia|].
destruct (at_index_Some
            (set_index (columns m) (focused m) (list_RemoveItem (list_Index l) l))
            (focused m + -1)) as [l' Hl']; [rewrite len_set_index; lia|].
unfold WithEdit.handleNormal, ListsOnly.handleNormal. cbn.
apply Z.ltb_lt in Hpos as ->.
rewrite (Lists_move_succeeds (-1) m w task c l l' Hsel Hc Hl Hl' Hok).
eexists _, _. repeat split.
Qed.

(** And in [src/main.go] it goes the other way. *)
Lemma WithBoard_move_left_focus (m : Model) (w : World) (task : Task.t) :
0 < focused m ->
getSelectedTask m = Some task ->
len (Board.Columns (board m)) = len (columns m) ->
outcome w = None ->
exists m' w',
  WithBoard.handleNormal "<" m w = Some ((m', Cmd_nil), w')
  /\ focused m' = focused m + 1.
Proof.
intros Hpos Hsel Hcols Hok.
pose proof (getSelectedTask_focus _ _ Hsel) as Hf.
destruct (at_index_Some (Board.Columns (board m)) (focused m + -1)) as [c Hc]; [lia|].
unfold WithBoard.handleNormal. cbn. apply Z.ltb_lt in Hpos as ->.
rewrite (WithBoard_move_succeeds (-1) m w task c Hsel Hc Hok).
eexists _, _. split; reflexivity.
Qed.
End Moves.

(** C3. [src/main.go], started on the store of an earlier start: one
    task is made in the middle column and moved left with [<]. The update
    goes through, the task is in the left column (index 0), and the focus
    went from 1 to 2. *)
Theorem main_go_move_left_focus_goes_right :
  match main_session ["l"; "i"; "a"; "enter"], main_session ["l"; "i"; "a"; "enter"; "<"] with
  | Some (m, w), Some (m', w') =>
      mode m = Normal /\ focused m = 1
      /\ (Task.Id <$> getSelectedTask m) = Some 1
      /\ column_of 1 (tasks (db w)) = (StatusColumn.Id <$> at_index (Board.Columns (board m)) 1)
      /\ err m' = None
      /\ column_of 1 (tasks (db w')) = (StatusColumn.Id <$> at_index (Board.Columns (board m)) 0)
      /\ List.map (fun l => task_ids (list_items l)) (columns m') = [[1]; []; []]
      /\ focused m' = 2
  | _, _ => False
  end.
Proof. vm_compute. repeat split. Qed.

(** C4. The same session with the task moved right first: the focus is 2,
    the last of the three columns; [<] moves the task back and leaves the
    focus at 3, which is no column. *)
Theorem main_go_focus_leaves_the_columns :
  match main_session ["l"; "i"; "a"; "enter"; ">"],
        main_session ["l"; "i"; "a"; "enter"; ">"; "<"] with
  | Some (m, _), Some (m', _) =>
      mode m = Normal /\ len (columns m) = 3 /\ focus_in_range m
      /\ err m' = None /\ len (columns m') = 3 /\ focused m' = 3
      /\ ~ focus_in_range m'
  | _, _ => False
  end.
Proof. vm_compute. repeat split; try discriminate. intros [_ Hlt]. discriminate Hlt. Qed.

(** ** The board against the store *)

Lemma column_of_replace_task (id : Z) (task : Task.t) (ts : list Task.t) :
  column_of id (replace_task task ts)
  = if id =? Task.Id task
    then match column_of id ts with
         | Some _ => Some (Task.StatusColumnId task)
         | None => None
         end
    else column_of id ts.
Proof.
  unfold column_of. induction ts as [|t0 ts IH]; cbn.
  - now destruct (id =? Task.Id task).
  - destruct (Z.eqb_spec (Task.Id t0) (Task.Id task)) as [Heq|Hne]; cbn.
    + destruct (Z.eqb_spec id (Task.Id task)) as [->|Hid].
      * rewrite Z.eqb_refl. cbn. rewrite Heq, Z.eqb_refl. reflexivity.
      * rewrite Heq. destruct (Z.eqb_spec (Task.Id task) id); [congruence|]. reflexivity.
    + destruct (Z.eqb_spec (Task.Id t0) id) as [Hid|Hid]; cbn.
      * destruct (Z.eqb_spec id (Task.Id task)); [congruence|]. reflexivity.
      * exact IH.
Qed.

Lemma column_of_update_rows (id : Z) (task : Task.t) (rows : list Task.t) :
  column_of id (TaskRepository.update_rows task rows)
  = if id =? Task.Id task
    then match column_of id rows with
         | Some _ => Some (Task.StatusColumnId task)
         | None => None
         end
    else column_of id rows.
Proof.
  unfold column_of, TaskRepository.update_rows. induction rows as [|t0 rows IH]; cbn.
  - now destruct (id =? Task.Id task).
  - destruct (Z.eqb_spec (Task.Id t0) (Task.Id task)) as [Heq|Hne]; cbn.
    + destruct (Z.eqb_spec (Task.Id t0) id) as [Hid|Hid]; cbn.
      * destruct (Z.eqb_spec id (Task.Id task)); [reflexivity|congruence].
      * destruct (Z.eqb_spec id (Task.Id task)); [congruence|]. exact IH.
    + destruct (Z.eqb_spec (Task.Id t0) id) as [Hid|Hid]; cbn.
      * destruct (Z.eqb_spec id (Task.Id task)); [congruence|]. reflexivity.
      * exact IH.
Qed.

Lemma length_sync_lists (b : Board.t) (cols : list StatusColumn.t) (ls : list list_Model) :
  length (WithBoard.sync_lists b cols ls) = length ls.
Proof.
  revert ls. induction cols as [|c cols IH]; intros [|l ls]; cbn; auto.
Qed.

Lemma all_succeed_outcome (w : World) : all_succeed w -> outcome w = None.
Proof.
  unfold all_succeed, outcome. destruct (faults w); cbn; [reflexivity|].
  now intros Hall%Forall_inv.
Qed.

Lemma all_succeed_after_call (s : Store) (w : World) :
  all_succeed w -> all_succeed (after_call s w).
Proof.
  unfold all_succeed, after_call. cbn. destruct (faults w); cbn; [auto|].
  intros Hall. now apply Forall_inv_tail in Hall.
Qed.

Section Replay.
Context `{Widgets}.

Lemma WithBoard_move_synced (dir : Z) (m : Model) (w : World) :
synced m w -> 0 <= focused m + dir < len (columns m) ->
exists m' w', WithBoard.move_task dir m w = Some ((m', Cmd_nil), w') /\ synced m' w'.
Proof.
intros (Hcols & Hagree & Hall) Hdir.
destruct (getSelectedTask m) as [task|] eqn:Hsel.
- destruct (at_index_Some (Board.Columns (board m)) (focused m + dir)) as [c Hc]; [lia|].
  rewrite (WithBoard_move_succeeds dir m w task c Hsel Hc (all_succeed_outcome _ Hall)).
  eexists _, _. split; [reflexivity|]. repeat split.
  + cbn. unfold len in *. now rewrite length_sync_lists.
  + intros id.
    cbn [board set_focused WithBoard.syncColumnData set_columns set_board
           Board_UpdateTask Board.Tasks Board.set_Tasks db after_call tasks set_tasks].
    rewrite column_of_replace_task, column_of_update_rows, !(Hagree id).
    reflexivity.
  + now apply all_succeed_after_call.
- unfold WithBoard.move_task. rewrite Hsel. eexists _, _.
  split; [reflexivity|]. now repeat split.
Qed.

Lemma WithBoard_handle_move_synced (k : string) (m : Model) (w : World) :
is_move k -> synced m w ->
exists m' w', WithBoard.handleNormal k m w = Some ((m', Cmd_nil), w') /\ synced m' w'.
Proof.
intros [-> | ->] Hs; unfold WithBoard.handleNormal; cbn.
- destruct (Z.ltb_spec 0 (focused m)); [|now eexists _, _].
  destruct (getSelectedTask m) as [task|] eqn:Hsel.
  + pose proof (getSelectedTask_focus _ _ Hsel). apply WithBoard_move_synced; [exact Hs|lia].
  + unfold WithBoard.move_task. rewrite Hsel. now eexists _, _.
- destruct (Z.ltb_spec (focused m) (len (columns m) - 1)); [|now eexists _, _].
  destruct (getSelectedTask m) as [task|] eqn:Hsel.
  + pose proof (getSelectedTask_focus _ _ Hsel). apply WithBoard_move_synced; [exact Hs|lia].
  + unfold WithBoard.move_task. rewrite Hsel. now eexists _, _.
Qed.

(** In [src/main.go], after any sequence of moves whose updates all go
  through, the column each task carries in the board is the one the
  same updates left in the store. *)
Lemma WithBoard_moves_agree (keys : list string) (m : Model) (w : World) :
Forall is_move keys -> synced m w ->
exists m' w', run WithBoard.handleNormal keys m w = Some (m', w') /\ agree m' w'.
Proof.
intros Hkeys. revert m w. induction Hkeys as [|k keys Hk _ IH]; intros m w Hs.
- exists m, w. split; [reflexivity|]. apply Hs.
- destruct (WithBoard_handle_move_synced k m w Hk Hs) as (m1 & w1 & Hstep & Hs1).
  destruct (IH m1 w1 Hs1) as (m' & w' & Hrun & Hagree).
  exists m', w'. split; [|exact Hagree].
  cbn. unfold bind. rewrite Hstep. exact Hrun.
Qed.
End Replay.

(** C1. In both programs of [part_000], after a move left whose update
    went through, the store has the task in column 1 and the list of
    column 1 shows it, while the board still carries column 2 for it: the
    board's task-to-column mapping is not the one the update left in the
    store. *)
Theorem part_000_move_leaves_the_board_behind :
  board_left_behind (WithEdit.Update_key (H := typing_widgets))
  /\ board_left_behind (ListsOnly.Update_key (H := typing_widgets)).
Proof. split; vm_compute; repeat split. Qed.

(** ** Deleting a task *)

Lemma not_In_delete_rows (id : Z) (rows : list Task.t) :
  ~ In id (task_ids (TaskRepository.delete_rows id rows)).
Proof.
  unfold task_ids, TaskRepository.delete_rows. rewrite in_map_iff.
  intros (t0 & Hid & Hin). apply filter_In in Hin as [_ Hne].
  rewrite <- Hid, Z.eqb_refl in Hne. discriminate.
Qed.

Lemma not_In_by_column (id c : Z) (b : Board.t) :
  ~ In id (task_ids (Board.Tasks b)) -> ~ In id (task_ids (Board.GetTasksByColumn c b)).
Proof.
  unfold task_ids, Board.GetTasksByColumn. rewrite !in_map_iff.
  intros Hno (t0 & Hid & Hin). apply filter_In in Hin as [Hin _]. eauto.
Qed.

Lemma sync_lists_items (b : Board.t) (cols : list StatusColumn.t) (ls : list list_Model)
    (l : list_Model) :
  length cols = length ls -> In l (WithBoard.sync_lists b cols ls) ->
  exists c, list_items l = Board.GetTasksByColumn c b.
Proof.
  revert ls. induction cols as [|c cols IH]; intros [|l0 ls]; cbn; try discriminate.
  - intros _ [].
  - intros [= Hlen] [<- | Hin]; [eauto|]. now apply (IH ls).
Qed.

Section Delete.
Context `{Widgets}.

(** In [src/main.go] a delete that goes through takes the task out of
  the store, out of the board, and out of every list, each list being
  the column view derived from the board anew. *)
Lemma WithBoard_delete_removes (m : Model) (w : World) (task : Task.t) :
getSelectedTask m = Some task ->
len (Board.Columns (board m)) = len (columns m) ->
outcome w = None ->
exists m' w',
  WithBoard.handleNormal "d" m w = Some ((m', Cmd_nil), w')
  /\ ~ In (Task.Id task) (task_ids (tasks (db w')))
  /\ ~ In (Task.Id task) (task_ids (Board.Tasks (board m')))
  /\ (forall l, In l (columns m') ->
        exists c, list_items l = Board.GetTasksByColumn c (board m'))
  /\ (forall c, ~ In (Task.Id task) (task_ids (Board.GetTasksByColumn c (board m')))).
Proof.
intros Hsel Hcols Hok. unfold WithBoard.handleNormal, WithBoard.delete_task. cbn.
rewrite Hsel. unfold bind. rewrite (Delete_succeeds _ _ Hok).
set (b' := Board_RemoveTask (Task.Id task) (board m)).
exists (WithBoard.syncColumnData (set_board b' m)). eexists. split; [reflexivity|].
assert (Hgone : ~ In (Task.Id task) (task_ids (Board.Tasks b')))
  by apply not_In_delete_rows.
repeat split.
- apply not_In_delete_rows.
- exact Hgone.
- intros l Hin. apply sync_lists_items in Hin; [exact Hin|].
  unfold len in Hcols. apply Nat2Z.inj. exact Hcols.
- intros c. apply not_In_by_column. exact Hgone.
Qed.
End Delete.

(** C5. In both programs of [part_000], after a delete that went
    through, the task is gone from the store and from the lists, and it
    is still in the board's task collection: the view of its column
    derived from the board ([GetTasksByColumn]) holds it again. *)
Theorem part_000_delete_leaves_the_task_in_the_board :
  deleted_task_stays_in_board (WithEdit.Update_key (H := typing_widgets))
  /\ deleted_task_stays_in_board (ListsOnly.Update_key (H := typing_widgets)).
Proof. split; vm_compute; repeat split. Qed.

(** ** Submitting the form with an empty title *)

Section EmptyTitle.
Context `{Widgets}.

(** [src/main.go] and the second program of [part_000] do nothing on
  [enter] with an empty title: same model (so still in [Insert]), same
  world. *)
Lemma empty_title_is_ignored (m : Model) (w : World) :
textinput_Value (titleInput (pane m)) = ""%string ->
WithBoard.handleInsert "enter" m w = Some ((m, Cmd_nil), w)
/\ ListsOnly.handleInsert "enter" m w = Some ((m, Cmd_nil), w).
Proof.
intros Hempty. unfold WithBoard.handleInsert, ListsOnly.handleInsert. cbn.
rewrite Hempty. cbn. split; reflexivity.
Qed.

(** The first program of [part_000] takes the branch of a submission
  that went through. *)
Lemma WithEdit_empty_title_leaves_Insert (m : Model) (w : World) :
taskId (pane m) = -1 ->
textinput_Value (titleInput (pane m)) = ""%string ->
WithEdit.handleInsert "enter" m w = Some ((clear_and_leave m, Cmd_nil), w).
Proof.
intros Hid Hempty. unfold WithEdit.handleInsert. cbn.
rewrite Hid, Hempty. cbn. reflexivity.
Qed.
End EmptyTitle.

(** C6. The first program of [part_000]: [i] opens the create form
    (edit context "creating": [taskId] is -1, the title is empty) and
    [enter] is pressed. No task is made, in the store or in the lists, and
    the controller is back in [Normal] mode. *)
Theorem part_000_empty_title_leaves_Insert_mode :
  match edit_session ["l"; "i"], edit_session ["l"; "i"; "enter"] with
  | Some (m, w), Some (m', w') =>
      mode m = Insert /\ taskId (pane m) = -1
      /\ textinput_Value (titleInput (pane m)) = ""%string
      /\ db w' = db w /\ board m' = board m /\ columns m' = columns m
      /\ err m' = None
      /\ mode m' = Normal
  | _, _ => False
  end.
Proof. vm_compute. repeat split. Qed.

(** ** Start-up on an empty store *)

(** Both programs of [part_000] write the default board and its three
    columns, read the columns back into the board, and make one list per
    column, left to right. *)
Lemma part_000_first_start :
  match Lists.NewModel fresh_world with
  | Some (m, w) =>
      err m = None
      /\ task_ids (tasks (db w)) = []
      /\ List.map Board.Title (boards (db w)) = ["My Kanban Board"%string]
      /\ names_positions (status_columns (db w))
         = [("To Do", 0); ("In Progress", 1); ("Done", 2)]%string
      /\ Board.Columns (board m) = status_columns (db w)
      /\ List.map list_Title (columns m) = ["To Do"; "In Progress"; "Done"]%string
  | None => False
  end.
Proof. vm_compute. repeat split. Qed.

(** C9. [src/main.go] on an empty store: the default board and exactly
    three columns "To Do", "In Progress", "Done" with positions 0, 1, 2
    are written to the store, and the board the controller keeps has no
    column at all (nor has it after the window is sized: no list is
    made). *)
Theorem main_go_first_start_keeps_no_columns :
  match WithBoard.NewModel fresh_world with
  | Some (m, w) =>
      err m = None
      /\ List.map Board.Title (boards (db w)) = ["My Kanban Board"%string]
      /\ names_positions (status_columns (db w))
         = [("To Do", 0); ("In Progress", 1); ("Done", 2)]%string
      /\ Board.Id (board m) = 1
      /\ List.map StatusColumn.BoardId (status_columns (db w)) = [1; 1; 1]
      /\ Board.Columns (board m) = []
      /\ (columns <$> WithBoard.rebuildColumns 120 40 m) = Some []
  | None => False
  end.
Proof. vm_compute. repeat split. Qed.

(** ** Creating a task with the focus past the columns *)

Lemma NewTask_run (title description : string) (w : World) :
  NewTask title description w
  = Some (Task.mk 0 0 0 title description 0 (clock w) (clock w) 1 None "" "",
          mkWorld (db w) (faults w) (clock w + 1)).
Proof. reflexivity. Qed.

Lemma Create_succeeds (task : Task.t) (w : World) :
  outcome w = None ->
  let row := Task.set_Id (seq_tasks (db w) + 1)
               (Task.set_UpdatedAt (clock w) (Task.set_CreatedAt (clock w) task)) in
  TaskRepository.Create task w
  = Some ((None, row),
          after_call (mkStore (boards (db w)) (status_columns (db w)) (tasks (db w) ++ [row])
                        (seq_boards (db w)) (seq_columns (db w)) (seq_tasks (db w) + 1)) w).
Proof.
  unfold outcome, TaskRepository.Create, bind, time_Now, gateway. cbn.
  intros ->. reflexivity.
Qed.

Arguments NewTask : simpl never.

Section PastTheColumns.
Variables (m : Model) (w : World) (title description : string) (first : StatusColumn.t).
Hypothesis Hfirst : at_index (Board.Columns (board m)) 0 = Some first.
Hypothesis Hok : outcome w = None.

Lemma board_has_columns : (len (Board.Columns (board m)) =? 0) = false.
Proof. apply at_index_bounds in Hfirst. apply Z.eqb_neq. lia. Qed.


(** [part_000]: once the task is in the store, the list to patch is
  [m.columns[m.focused]], and there is none. *)
Lemma Lists_createTask_past_the_lists :
len (columns m) <= focused m ->
Lists.createTask title description m w = None.
Proof.
intros Hpast. unfold Lists.createTask. rewrite board_has_columns.
unfold bind at 1. unfold index at 1. rewrite Hfirst. cbn [ret].
assert (Hnone : at_index (columns m) (focused m) = None).
{ destruct (at_index (columns m) (focused m)) eqn:Hl; [|reflexivity].
  apply at_index_bounds in Hl. lia. }
destruct (focused m <? len (Board.Columns (board m))).
- unfold bind at 1. unfold bind at 1. unfold index at 1.
  destruct (at_index (Board.Columns (board m)) (focused m)); [|reflexivity].
  cbn [ret]. unfold bind at 1. rewrite NewTask_run.
  unfold bind. rewrite Create_succeeds by exact Hok.
  unfold index. rewrite Hnone. reflexivity.
- unfold bind at 1. cbn [ret]. unfold bind at 1. rewrite NewTask_run.
  unfold bind. rewrite Create_succeeds by exact Hok.
  unfold index. rewrite Hnone. reflexivity.
Qed.
End PastTheColumns.


(** ** Submitting the edit form (first program of [part_000]) *)

Arguments edited : simpl never.

Section EditForm.
Context `{Widgets}.
Variables (m : Model) (w : World) (task : Task.t) (l : list_Model).
Hypothesis Hedit : editing m task l.

Lemma updateTask_fails (title description e : string) :
outcome w = Some e ->
WithEdit.updateTask title description m w = Some ((Some e, m), after_call (db w) w).
Proof.
destruct Hedit as (_ & _ & Hsel & _ & _ & Hcols). intros Hfail.
pose proof (getSelectedTask_focus _ _ Hsel) as Hf.
destruct (at_index_Some (Board.Columns (board m)) (focused m)) as [c Hc]; [lia|].
unfold WithEdit.updateTask. rewrite Hsel. unfold bind.
rewrite (Update_fails _ _ e Hfail). unfold index. rewrite Hc. reflexivity.
Qed.

Lemma updateTask_succeeds (title description : string) :
outcome w = None ->
let task' := edited title description (clock w) task in
WithEdit.updateTask title description m w
= Some ((None,
         set_pane (set_listIndex (-1) (pane m))
           (set_columns
              (set_index (columns m) (focused m)
                 (list_SetItems (set_index (list_items l) (list_Index l) task') l)) m)),
        after_call (set_tasks (TaskRepository.update_rows task' (tasks (db w))) (db w)) w).
Proof.
destruct Hedit as (_ & _ & Hsel & Hl & Hidx & _). intros Hok.
destruct (getSelectedTask_list _ _ Hsel) as (l0 & Hl0 & Hitem).
assert (l0 = l) by congruence. subst l0. unfold list_SelectedItem in Hitem.
unfold WithEdit.updateTask. rewrite Hsel. unfold bind.
rewrite (Update_succeeds _ _ Hok). unfold index at 1. rewrite Hl. cbn [ret].
unfold list_SetItem, bind, index. rewrite Hidx, Hitem. reflexivity.
Qed.
End EditForm.

Lemma form_open_editing :
  editing form_model form_task form_list
  /\ outcome form_world = None
  /\ outcome (failing "database is locked" form_world) = Some "database is locked"%string
  /\ Task.Id form_task = 1 /\ Task.title form_task = "a"%string
  /\ textinput_Value (titleInput (pane form_model)) = "ab"%string.
Proof. vm_compute. repeat split; discriminate. Qed.

(** C7, counterexample. With the form open on task 1 and the update
    failing, [enter] shows the error and the controller is still in
    [Insert] mode. *)
Lemma failed_edit_does_not_return_to_Normal : ~ failed_edit_returns_to_Normal.
Proof.
  intros Hclaim.
  destruct (Hclaim typing_widgets form_model (failing "database is locked" form_world)
              "database is locked"%string form_task form_list
              (proj1 form_open_editing) eq_refl)
    as (m' & cmd & w' & Hrun & _ & Hmode).
  vm_compute in Hrun. injection Hrun as <- _ _. discriminate Hmode.
Qed.

(** C7, amended. An edit submission whose update fails shows the error
    and leaves everything else as it was: the controller stays in
    [Insert] mode with the form as typed, the board, the lists and the
    focus are the ones before, and so is the store; nothing is tried
    again. *)
Theorem failed_edit_stays_in_Insert `{Widgets} (m : Model) (w : World) (e : string)
    (task : Task.t) (l : list_Model) :
  editing m task l -> outcome w = Some e ->
  exists m' w',
    WithEdit.handleInsert "enter" m w = Some ((m', Cmd_nil), w')
    /\ err m' = Some e
    /\ mode m' = Insert
    /\ pane m' = pane m /\ board m' = board m /\ columns m' = columns m
    /\ focused m' = focused m
    /\ db w' = db w.
Proof.
  intros Hedit Hfail.
  assert (Hm : mode m = Insert) by apply Hedit.
  assert (Hid : (taskId (pane m) =? -1) = false) by (apply Z.eqb_neq, Hedit).
  unfold WithEdit.handleInsert. cbn. rewrite Hid. cbn. unfold bind.
  rewrite (updateTask_fails m w task l Hedit _ _ e Hfail). cbn.
  eexists _, _. split; [reflexivity|]. cbn. repeat split. exact Hm.
Qed.

Lemma at_index_set_index {A} (s : list A) (i : Z) (a x : A) :
  at_index s i = Some a -> at_index (set_index s i x) i = Some x.
Proof.
  unfold at_index, set_index. destruct (Z.ltb_spec i 0); [discriminate|].
  intros Hl. apply list_lookup_insert_eq. now apply lookup_lt_Some in Hl.
Qed.

Lemma update_rows_column (task row : Task.t) (rows : list Task.t) :
  In row (TaskRepository.update_rows task rows) -> Task.Id row = Task.Id task ->
  Task.StatusColumnId row = Task.StatusColumnId task.
Proof.
  unfold TaskRepository.update_rows. rewrite in_map_iff.
  intros (row0 & Hrow & _) Hid.
  destruct (Z.eqb_spec (Task.Id row0) (Task.Id task)) as [_|Hne].
  - now subst row.
  - subst row. contradiction.
Qed.

(** The submission of the open form, the update going through: the task
    selected before was stamped 1002, the one selected after is stamped
    1003, the reading of the clock by [Update]. *)
Lemma form_submitted :
  Task.UpdatedAt form_task = 1002
  /\ match WithEdit.handleInsert (H := typing_widgets) "enter" form_model form_world with
     | Some ((m', _), _) => (Task.UpdatedAt <$> getSelectedTask m') = Some 1003
     | None => False
     end.
Proof. vm_compute. split; reflexivity. Qed.

(** C8, counterexample. The form is open on task 1, last updated at
    1002; [enter] with the update going through puts in the list, and
    hands to the store, a task stamped 1003. *)
Lemma edit_changes_the_stamp_too : ~ edit_changes_text_only.
Proof.
  intros Hclaim.
  destruct (Hclaim typing_widgets form_model form_world form_task form_list
              (proj1 form_open_editing) (proj1 (proj2 form_open_editing)))
    as (m' & cmd & w' & task' & Hrun & Hsel & _ & Hsame).
  destruct form_submitted as [Hbefore Hafter].
  rewrite Hrun, Hsel in Hafter. cbn in Hafter.
  destruct Hsame as (_ & _ & _ & _ & _ & Hstamp & _).
  rewrite Hbefore in Hstamp. rewrite <- Hstamp in Hafter. discriminate Hafter.
Qed.

(** C8, amended. An edit submission whose update goes through hands to
    the store, and puts in the focused list in place of the task, the
    task with the title and the description of the form and the time of
    the update: the column identifier is the one before, and so is every
    field but title, description and [UpdatedAt]; the rows of the store
    with the task's identifier carry that column. The controller is back
    in [Normal] mode. *)
Theorem edit_keeps_the_column `{Widgets} (m : Model) (w : World)
    (task : Task.t) (l : list_Model) :
  editing m task l -> outcome w = None ->
  let task' := edited (textinput_Value (titleInput (pane m)))
                 (textinput_Value (descriptionInput (pane m))) (clock w) task in
  exists m' w',
    WithEdit.handleInsert "enter" m w = Some ((m', Cmd_nil), w')
    /\ tasks (db w') = TaskRepository.update_rows task' (tasks (db w))
    /\ getSelectedTask m' = Some task'
    /\ Task.StatusColumnId task' = Task.StatusColumnId task
    /\ same_but_text_and_stamp task task'
    /\ Task.UpdatedAt task' = clock w
    /\ (forall row, In row (tasks (db w')) -> Task.Id row = Task.Id task ->
          Task.StatusColumnId row = Task.StatusColumnId task)
    /\ board m' = board m /\ focused m' = focused m
    /\ mode m' = Normal.
Proof.
  intros Hedit Hok task'.
  assert (Hid : (taskId (pane m) =? -1) = false) by (apply Z.eqb_neq, Hedit).
  destruct Hedit as (Hm & Hne & Hsel & Hl & Hidx & Hcols) eqn:Hsame. clear Hsame.
  pose proof (getSelectedTask_focus _ _ Hsel) as Hf.
  destruct (getSelectedTask_list _ _ Hsel) as (l0 & Hl0 & Hitem).
  assert (l0 = l) by congruence. subst l0. unfold list_SelectedItem in Hitem.
  unfold WithEdit.handleInsert. cbn. rewrite Hid. cbn. unfold bind.
  rewrite (updateTask_succeeds m w task l
             (conj Hm (conj Hne (conj Hsel (conj Hl (conj Hidx Hcols))))) _ _ Hok).
  fold task'. eexists _, _. split; [reflexivity|].
  split; [reflexivity|]. split.
  - unfold getSelectedTask.
    cbn [columns focused clear_and_leave set_mode set_pane set_columns].
    rewrite len_set_index.
    destruct (Z.eqb_spec (len (columns m)) 0); [lia|].
    destruct (Z.ltb_spec (focused m) 0); [lia|].
    destruct (Z.leb_spec (len (columns m)) (focused m)); [lia|]. cbn [orb].
    rewrite (at_index_set_index _ _ l _ Hl). unfold list_SelectedItem, list_Index.
    cbn [list_items list_cursor list_SetItems].
    apply (at_index_set_index _ _ task). exact Hitem.
  - repeat split.
    intros row Hin Hrow. cbn in Hin.
    apply (update_rows_column task' row _ Hin). exact Hrow.
Qed.

(** ** Worked instances *)

(** The model of the first program of [part_000] after a task was made
    in the middle column: [Normal] mode, focus 1, task 1 selected. *)
Lemma failed_move_changes_nothing_witness :
  rolls_back (WithBoard.handleNormal (H := typing_widgets)) "<"
    selected_model (failing "database is locked" one_task_world) "database is locked"
  /\ rolls_back (WithEdit.handleNormal (H := typing_widgets)) "<"
       selected_model (failing "database is locked" one_task_world) "database is locked"
  /\ rolls_back (ListsOnly.handleNormal (H := typing_widgets)) "<"
       selected_model (failing "database is locked" one_task_world) "database is locked".
Proof.
  apply (failed_move_changes_nothing (H := typing_widgets) "<" selected_model
           (failing "database is locked" one_task_world) "database is locked" selected_task).
  - left. split; vm_compute; reflexivity.
  - vm_compute. reflexivity.
  - vm_compute. reflexivity.
  - vm_compute. reflexivity.
Defined.

Lemma failed_edit_stays_in_Insert_witness :
  exists m' w',
    WithEdit.handleInsert (H := typing_widgets) "enter" form_model
      (failing "database is locked" form_world) = Some ((m', Cmd_nil), w')
    /\ err m' = Some "database is locked"%string
    /\ mode m' = Insert
    /\ pane m' = pane form_model /\ board m' = board form_model
    /\ columns m' = columns form_model
    /\ focused m' = focused form_model
    /\ db w' = db (failing "database is locked" form_world).
Proof.
  apply (failed_edit_stays_in_Insert (H := typing_widgets) form_model
           (failing "database is locked" form_world) "database is locked"
           form_task form_list).
  - vm_compute. repeat split; discriminate.
  - vm_compute. reflexivity.
Defined.

Lemma edit_keeps_the_column_witness :
  exists m' w',
    WithEdit.handleInsert (H := typing_widgets) "enter" form_model form_world
    = Some ((m', Cmd_nil), w')
    /\ tasks (db w') = TaskRepository.update_rows (edited "ab" "" 1003 form_task)
                         (tasks (db form_world))
    /\ getSelectedTask m' = Some (edited "ab" "" 1003 form_task)
    /\ Task.StatusColumnId (edited "ab" "" 1003 form_task) = Task.StatusColumnId form_task
    /\ same_but_text_and_stamp form_task (edited "ab" "" 1003 form_task)
    /\ Task.UpdatedAt (edited "ab" "" 1003 form_task) = clock form_world
    /\ (forall row, In row (tasks (db w')) -> Task.Id row = Task.Id form_task ->
          Task.StatusColumnId row = Task.StatusColumnId form_task)
    /\ board m' = board form_model /\ focused m' = focused form_model
    /\ mode m' = Normal.
Proof.
  apply (edit_keeps_the_column (H := typing_widgets) form_model form_world
           form_task form_list).
  - vm_compute. repeat split; discriminate.
  - vm_compute. reflexivity.
Defined.


(** * Further properties of the code *)

(** ** Failures and no-ops of the key handlers *)

Section Refusals.
Context `{Widgets}.

(** X1. A delete whose persistence call fails shows the error and leaves
  the board, the lists, the focus and the store as they were, in each
  of the three revisions. *)
Theorem failed_delete_changes_nothing (m : Model) (w : World) (e : string) (task : Task.t) :
getSelectedTask m = Some task ->
outcome w = Some e ->
rolls_back WithBoard.handleNormal "d" m w e
/\ rolls_back WithEdit.handleNormal "d" m w e
/\ rolls_back ListsOnly.handleNormal "d" m w e.
Proof.
intros Hsel Hfail.
unfold rolls_back, WithBoard.handleNormal, WithEdit.handleNormal, ListsOnly.handleNormal.
cbn. unfold WithBoard.delete_task, Lists.delete_task. rewrite Hsel. unfold bind.
rewrite (Delete_fails _ _ e Hfail). cbn.
repeat split; eexists _, _; (split; [reflexivity|cbn; auto]).
Qed.

(** X2. With nothing selected, the keys [<], [>] and [d] do nothing in
  any revision, and neither does [e] in the revision that has it: no
  gateway call, same model, same world. *)
Theorem nothing_selected_nothing_done (m : Model) (w : World) (msg : string) :
getSelectedTask m = None ->
msg = "<"%string \/ msg = ">"%string \/ msg = "d"%string ->
ignored WithBoard.handleNormal msg m w
/\ ignored WithEdit.handleNormal msg m w
/\ ignored ListsOnly.handleNormal msg m w
/\ ignored WithEdit.handleNormal "e" m w.
Proof.
intros Hsel Hmsg.
unfold ignored, WithBoard.handleNormal, WithEdit.handleNormal, ListsOnly.handleNormal.
destruct Hmsg as [-> | [-> | ->]]; cbn;
  unfold WithBoard.move_task, Lists.move_task, WithBoard.delete_task, Lists.delete_task;
  rewrite Hsel;
  repeat match goal with |- context [if ?b then _ else _] => destruct b end;
  repeat split.
Qed.

(** X3. A create submission whose insert fails shows the error and
  changes nothing else: the controller stays in the mode it was in, the
  form keeps what was typed, and the board, the lists and the store are
  the ones before; in each of the three revisions. *)
Theorem failed_create_changes_nothing (m : Model) (w : World) (e : string)
  (first : StatusColumn.t) :
taskId (pane m) = -1 ->
textinput_Value (titleInput (pane m)) <> ""%string ->
at_index (Board.Columns (board m)) 0 = Some first ->
0 <= focused m ->
outcome w = Some e ->
refused WithBoard.handleInsert m w e
/\ refused WithEdit.handleInsert m w e
/\ refused ListsOnly.handleInsert m w e.
Proof.
intros Hid Htitle Hfirst Hpos Hfail.
assert (Hne : key (textinput_Value (titleInput (pane m))) "" = false)
  by (apply String.eqb_neq; exact Htitle).
assert (Hcreate1 : exists w', WithBoard.createTask (textinput_Value (titleInput (pane m)))
                      (textinput_Value (descriptionInput (pane m))) m w
                    = Some ((Some e, m), w') /\ db w' = db w).
{ unfold WithBoard.createTask. rewrite (board_has_columns m first Hfirst).
  unfold bind at 1. unfold index at 1. rewrite Hfirst. cbn [ret].
  destruct (Z.ltb_spec (focused m) (len (Board.Columns (board m)))).
  - destruct (at_index_Some (Board.Columns (board m)) (focused m)) as [c Hc]; [lia|].
    unfold bind at 1. unfold bind at 1. unfold index at 1. rewrite Hc. cbn [ret].
    unfold bind at 1. rewrite NewTask_run. unfold bind.
    unfold TaskRepository.Create, bind, time_Now, gateway. cbn.
    unfold outcome in Hfail. rewrite Hfail. eexists. split; reflexivity.
  - unfold bind at 1. cbn [ret]. unfold bind at 1. rewrite NewTask_run. unfold bind.
    unfold TaskRepository.Create, bind, time_Now, gateway. cbn.
    unfold outcome in Hfail. rewrite Hfail. eexists. split; reflexivity. }
assert (Hcreate2 : exists w', Lists.createTask (textinput_Value (titleInput (pane m)))
                      (textinput_Value (descriptionInput (pane m))) m w
                    = Some ((Some e, m), w') /\ db w' = db w).
{ unfold Lists.createTask. rewrite (board_has_columns m first Hfirst).
  unfold bind at 1. unfold index at 1. rewrite Hfirst. cbn [ret].
  destruct (Z.ltb_spec (focused m) (len (Board.Columns (board m)))).
  - destruct (at_index_Some (Board.Columns (board m)) (focused m)) as [c Hc]; [lia|].
    unfold bind at 1. unfold bind at 1. unfold index at 1. rewrite Hc. cbn [ret].
    unfold bind at 1. rewrite NewTask_run. unfold bind.
    unfold TaskRepository.Create, bind, time_Now, gateway. cbn.
    unfold outcome in Hfail. rewrite Hfail. eexists. split; reflexivity.
  - unfold bind at 1. cbn [ret]. unfold bind at 1. rewrite NewTask_run. unfold bind.
    unfold TaskRepository.Create, bind, time_Now, gateway. cbn.
    unfold outcome in Hfail. rewrite Hfail. eexists. split; reflexivity. }
destruct Hcreate1 as (w1 & Hc1 & Hdb1). destruct Hcreate2 as (w2 & Hc2 & Hdb2).
unfold refused, WithBoard.handleInsert, WithEdit.handleInsert, ListsOnly.handleInsert.
cbn. rewrite Hne, Hid. cbn. unfold bind. rewrite Hc1, Hc2. cbn.
repeat split; eexists; (split; [reflexivity|assumption]).
Qed.

(** X4. On a board without columns a create submission is refused with
  "no columns available" before any gateway call, in each of the three
  revisions. *)
Theorem no_columns_no_task (m : Model) (w : World) :
taskId (pane m) = -1 ->
textinput_Value (titleInput (pane m)) <> ""%string ->
Board.Columns (board m) = [] ->
let refusal := (set_err (Some "no columns available"%string) m, Cmd_nil) in
WithBoard.handleInsert "enter" m w = Some (refusal, w)
/\ WithEdit.handleInsert "enter" m w = Some (refusal, w)
/\ ListsOnly.handleInsert "enter" m w = Some (refusal, w).
Proof.
intros Hid Htitle Hnone.
assert (Hne : key (textinput_Value (titleInput (pane m))) "" = false)
  by (apply String.eqb_neq; exact Htitle).
unfold WithBoard.handleInsert, WithEdit.handleInsert, ListsOnly.handleInsert.
cbn. rewrite Hne, Hid. cbn.
unfold bind, WithBoard.createTask, Lists.createTask. rewrite Hnone. cbn.
repeat split.
Qed.

(** X5. In [Insert] mode only [enter] reaches the data: every other key
  (quit, [esc], [tab], a typed key) leaves the board, the lists, the
  focus, the error shown and the world as they were, in each of the
  three revisions. *)
Theorem only_enter_submits (msg : string) (m : Model) (w : World) :
msg <> "enter"%string ->
touches_the_form_only WithBoard.handleInsert msg m w
/\ touches_the_form_only WithEdit.handleInsert msg m w
/\ touches_the_form_only ListsOnly.handleInsert msg m w.
Proof.
intros Hmsg.
assert (Hne : key msg "enter" = false) by (apply String.eqb_neq; exact Hmsg).
unfold touches_the_form_only, WithBoard.handleInsert, WithEdit.handleInsert,
  ListsOnly.handleInsert.
rewrite Hne.
destruct (key msg "ctrl+c"); [repeat split; eexists _, _; repeat split|].
destruct (key msg "esc"); [repeat split; eexists _, _; repeat split|].
destruct (key msg "tab").
{ unfold handleInsert_tab. destruct (pane_focused (pane m) =? 0); cbn;
    repeat split; eexists _, _; repeat split. }
unfold handleInsert_other.
destruct (pane_focused (pane m) =? 0);
  [destruct (textinput_Update msg (titleInput (pane m)))
  |destruct (textinput_Update msg (descriptionInput (pane m)))];
  repeat split; eexists _, _; repeat split.
Qed.
End Refusals.

(** ** [part_000]: the keys of [Normal] mode on a well-formed model *)

Section NormalKeys.
Context `{Widgets}.

Lemma Lists_move_runs (dir : Z) (m : Model) (w : World) :
len (Board.Columns (board m)) = len (columns m) ->
0 <= focused m + dir < len (columns m) ->
exists r, Lists.move_task dir m w = Some r.
Proof.
intros Hcols Hdir. destruct (getSelectedTask m) as [task|] eqn:Hsel.
- pose proof (getSelectedTask_focus _ _ Hsel) as Hf.
  destruct (outcome w) as [e|] eqn:Hout.
  + destruct (Lists_move_fails m w e task Hsel Hcols Hout dir Hdir) as (w' & -> & _). eauto.
  + destruct (getSelectedTask_list _ _ Hsel) as (l & Hl & _).
    destruct (at_index_Some (Board.Columns (board m)) (focused m + dir)) as [c Hc]; [lia|].
    destruct (at_index_Some
                (set_index (columns m) (focused m) (list_RemoveItem (list_Index l) l))
                (focused m + dir)) as [l' Hl']; [rewrite len_set_index; lia|].
    rewrite (Lists_move_succeeds dir m w task c l l' Hsel Hc Hl Hl' Hout). eauto.
- unfold Lists.move_task. rewrite Hsel. eauto.
Qed.

Lemma Lists_delete_runs (m : Model) (w : World) :
exists r, Lists.delete_task m w = Some r.
Proof.
unfold Lists.delete_task. destruct (getSelectedTask m) as [task|] eqn:Hsel; [|eauto].
destruct (getSelectedTask_list _ _ Hsel) as (l & Hl & _).
unfold bind. destruct (outcome w) as [e|] eqn:Hout.
- rewrite (Delete_fails _ _ e Hout). cbn. eauto.
- rewrite (Delete_succeeds _ _ Hout). cbn. unfold index, bind. cbn. rewrite Hl. cbn. eauto.
Qed.

Lemma handleListInput_runs (msg : string) (m : Model) (w : World) :
focus_in_range m -> exists r, handleListInput msg m w = Some r.
Proof.
intros Hf. destruct (at_index_Some (columns m) (focused m) Hf) as [l Hl].
unfold handleListInput, bind, index. rewrite Hl. cbn.
destruct (list_Update msg l). eauto.
Qed.

Lemma WithEdit_handleNormal_runs (msg : string) (m : Model) (w : World) :
well_formed m -> exists r, WithEdit.handleNormal msg m w = Some r.
Proof.
intros [Hcols Hf]. pose proof Hf as Hf'. unfold focus_in_range in Hf'.
destruct (at_index_Some (columns m) (focused m) Hf) as [l Hl].
unfold WithEdit.handleNormal.
destruct (key msg "ctrl+c" || key msg "q"); [eauto|].
destruct (key msg "left" || key msg "h"); [eauto|].
destruct (key msg "right" || key msg "l"); [eauto|].
destruct (key msg "<").
{ destruct (Z.ltb_spec 0 (focused m)); [|eauto]. apply Lists_move_runs; [exact Hcols|lia]. }
destruct (key msg ">").
{ destruct (Z.ltb_spec (focused m) (len (columns m) - 1)); [|eauto].
  apply Lists_move_runs; [exact Hcols|lia]. }
destruct (key msg "d"); [apply Lists_delete_runs|].
destruct (key msg "e").
{ destruct (getSelectedTask m); [|eauto]. unfold bind, index. cbn. rewrite Hl. cbn. eauto. }
destruct (key msg "i"); [|now apply handleListInput_runs].
unfold bind, index. rewrite Hl. cbn.
destruct (list_SettingFilter l); cbn; [now apply handleListInput_runs|eauto].
Qed.

Lemma ListsOnly_handleNormal_runs (msg : string) (m : Model) (w : World) :
well_formed m -> exists r, ListsOnly.handleNormal msg m w = Some r.
Proof.
intros [Hcols Hf]. pose proof Hf as Hf'. unfold focus_in_range in Hf'.
destruct (at_index_Some (columns m) (focused m) Hf) as [l Hl].
unfold ListsOnly.handleNormal.
destruct (key msg "ctrl+c" || key msg "q"); [eauto|].
destruct (key msg "left" || key msg "h"); [eauto|].
destruct (key msg "right" || key msg "l"); [eauto|].
destruct (key msg "<").
{ destruct (Z.ltb_spec 0 (focused m)); [|eauto]. apply Lists_move_runs; [exact Hcols|lia]. }
destruct (key msg ">").
{ destruct (Z.ltb_spec (focused m) (len (columns m) - 1)); [|eauto].
  apply Lists_move_runs; [exact Hcols|lia]. }
destruct (key msg "d"); [apply Lists_delete_runs|].
destruct (key msg "i"); [|now apply handleListInput_runs].
unfold bind, index. rewrite Hl. cbn.
destruct (list_SettingFilter l); cbn; [now apply handleListInput_runs|eauto].
Qed.

(** No key of [Normal] mode writes the board in [part_000]. *)
Lemma Lists_move_board (dir : Z) (m m' : Model) (cmd : Cmd) (w w' : World) :
Lists.move_task dir m w = Some ((m', cmd), w') -> board m' = board m.
Proof.
unfold Lists.move_task. intros Hr.
destruct (getSelectedTask m) as [task|]; unbind Hr; injection Hr as <- <- <-; reflexivity.
Qed.

Lemma Lists_delete_board (m m' : Model) (cmd : Cmd) (w w' : World) :
Lists.delete_task m w = Some ((m', cmd), w') -> board m' = board m.
Proof.
unfold Lists.delete_task. intros Hr.
destruct (getSelectedTask m) as [task|]; unbind Hr; injection Hr as <- <- <-; reflexivity.
Qed.

Lemma handleListInput_board (msg : string) (m m' : Model) (cmd : Cmd) (w w' : World) :
handleListInput msg m w = Some ((m', cmd), w') -> board m' = board m.
Proof.
unfold handleListInput. intros Hr. unbind Hr.
destruct (list_Update msg a). unbind Hr. injection Hr as <- <- <-. reflexivity.
Qed.

Lemma WithEdit_handleNormal_board (msg : string) (m m' : Model) (cmd : Cmd) (w w' : World) :
WithEdit.handleNormal msg m w = Some ((m', cmd), w') ->
board m' = board m /\ len (columns m') = len (columns m).
Proof.
intros Hr. unfold WithEdit.handleNormal in Hr.
destruct (key msg "ctrl+c" || key msg "q"); [injection Hr as <- <- <-; auto|].
destruct (key msg "left" || key msg "h").
{ injection Hr as <- <- <-. unfold focus_left. now destruct (0 <? focused m). }
destruct (key msg "right" || key msg "l").
{ injection Hr as <- <- <-. unfold focus_right.
  now destruct (focused m <? len (columns m) - 1). }
destruct (key msg "<").
{ destruct (0 <? focused m); [|injection Hr as <- <- <-; auto].
  split; [now apply Lists_move_board in Hr|now apply Lists_move_focus in Hr]. }
destruct (key msg ">").
{ destruct (focused m <? len (columns m) - 1); [|injection Hr as <- <- <-; auto].
  split; [now apply Lists_move_board in Hr|now apply Lists_move_focus in Hr]. }
destruct (key msg "d").
{ split; [now apply Lists_delete_board in Hr|now apply Lists_delete_focus in Hr]. }
destruct (key msg "e").
{ destruct (getSelectedTask m); unbind Hr; injection Hr as <- <- <-; auto. }
assert (Hlist : forall w0, handleListInput msg m w0 = Some ((m', cmd), w') ->
                  board m' = board m /\ len (columns m') = len (columns m)).
{ intros w0 Hl. split; [now apply handleListInput_board in Hl|].
  unfold handleListInput in Hl. unbind Hl. destruct (list_Update msg a). unbind Hl.
  injection Hl as <- <- <-. cbn. apply len_set_index. }
destruct (key msg "i"); [|now apply (Hlist w)].
unbind Hr; [injection Hr as <- <- <-; auto|now apply (Hlist w0)].
Qed.

Lemma ListsOnly_handleNormal_board (msg : string) (m m' : Model) (cmd : Cmd) (w w' : World) :
ListsOnly.handleNormal msg m w = Some ((m', cmd), w') ->
board m' = board m /\ len (columns m') = len (columns m).
Proof.
intros Hr. unfold ListsOnly.handleNormal in Hr.
destruct (key msg "ctrl+c" || key msg "q"); [injection Hr as <- <- <-; auto|].
destruct (key msg "left" || key msg "h").
{ injection Hr as <- <- <-. unfold focus_left. now destruct (0 <? focused m). }
destruct (key msg "right" || key msg "l").
{ injection Hr as <- <- <-. unfold focus_right.
  now destruct (focused m <? len (columns m) - 1). }
destruct (key msg "<").
{ destruct (0 <? focused m); [|injection Hr as <- <- <-; auto].
  split; [now apply Lists_move_board in Hr|now apply Lists_move_focus in Hr]. }
destruct (key msg ">").
{ destruct (focused m <? len (columns m) - 1); [|injection Hr as <- <- <-; auto].
  split; [now apply Lists_move_board in Hr|now apply Lists_move_focus in Hr]. }
destruct (key msg "d").
{ split; [now apply Lists_delete_board in Hr|now apply Lists_delete_focus in Hr]. }
assert (Hlist : forall w0, handleListInput msg m w0 = Some ((m', cmd), w') ->
                  board m' = board m /\ len (columns m') = len (columns m)).
{ intros w0 Hl. split; [now apply handleListInput_board in Hl|].
  unfold handleListInput in Hl. unbind Hl. destruct (list_Update msg a). unbind Hl.
  injection Hl as <- <- <-. cbn. apply len_set_index. }
destruct (key msg "i"); [|now apply (Hlist w)].
unbind Hr; [injection Hr as <- <- <-; auto|now apply (Hlist w0)].
Qed.

(** X6. In both programs of [part_000], on a model with one list per
  board column and the focus on one of them, every key of [Normal] mode
  is handled without a panic, whatever the gateway answers, and leaves
  such a model: the board is the one before, there is still one list
  per column, and the focus is still on a column. *)
Theorem part_000_normal_keys_keep_well_formed (msg : string) (m : Model) (w : World) :
well_formed m ->
(exists m' cmd w', WithEdit.handleNormal msg m w = Some ((m', cmd), w')
                   /\ board m' = board m /\ well_formed m')
/\ (exists m' cmd w', ListsOnly.handleNormal msg m w = Some ((m', cmd), w')
                      /\ board m' = board m /\ well_formed m').
Proof.
intros Hwf. split.
- destruct (WithEdit_handleNormal_runs msg m w Hwf) as [[[m' cmd] w'] Hr].
  exists m', cmd, w'. split; [exact Hr|].
  destruct (WithEdit_handleNormal_board _ _ _ _ _ _ Hr) as [Hb Hlen].
  split; [exact Hb|]. split.
  + rewrite Hb, Hlen. apply Hwf.
  + apply (WithEdit_focus_in_range msg m m' cmd w w'); [apply Hwf|exact Hr].
- destruct (ListsOnly_handleNormal_runs msg m w Hwf) as [[[m' cmd] w'] Hr].
  exists m', cmd, w'. split; [exact Hr|].
  destruct (ListsOnly_handleNormal_board _ _ _ _ _ _ Hr) as [Hb Hlen].
  split; [exact Hb|]. split.
  + rewrite Hb, Hlen. apply Hwf.
  + apply (ListsOnly_focus_in_range msg m m' cmd w w'); [apply Hwf|exact Hr].
Qed.
End NormalKeys.

(** ** [part_000]: what a creation that goes through leaves *)

Section Patches.
Context `{Widgets}.

Lemma Lists_createTask_succeeds (title description : string) (m : Model) (w : World)
    (column : StatusColumn.t) (l : list_Model) :
  at_index (Board.Columns (board m)) (focused m) = Some column ->
  at_index (columns m) (focused m) = Some l ->
  outcome w = None ->
  let task := Task.mk (seq_tasks (db w) + 1) (Board.Id (board m)) (StatusColumn.Id column)
                title description 0 (clock w + 1) (clock w + 1) 1 None "" "" in
  exists w',
    Lists.createTask title description m w
    = Some ((None,
             set_columns (set_index (columns m) (focused m)
                            (list_SetItems (task :: list_items l) l)) m), w')
    /\ tasks (db w') = tasks (db w) ++ [task]
    /\ seq_tasks (db w') = seq_tasks (db w) + 1.
Proof.
  intros Hc Hl Hok task.
  pose proof (at_index_bounds _ _ _ Hc) as Hb.
  destruct (at_index_Some (Board.Columns (board m)) 0) as [first Hfirst]; [lia|].
  unfold Lists.createTask. rewrite (board_has_columns m first Hfirst).
  unfold bind at 1. unfold index at 1. rewrite Hfirst. cbn [ret].
  destruct (Z.ltb_spec (focused m) (len (Board.Columns (board m)))); [|lia].
  unfold bind at 1. unfold bind at 1. unfold index at 1. rewrite Hc. cbn [ret].
  unfold bind at 1. rewrite NewTask_run. unfold bind.
  rewrite Create_succeeds by exact Hok. cbn. unfold index. rewrite Hl. cbn.
  eexists. split; [reflexivity|]. split; reflexivity.
Qed.

(** X8. In both programs of [part_000], [createTask] with the focus on
  a column whose insert goes through writes one new row: identifier one
  past the counter, the board's identifier, the focused column's
  identifier, the title and description given, position 0, priority 1
  (low), no due date; puts that task first in the focused list, and
  returns [nil]. *)
Theorem part_000_createTask_in_focus (title description : string) (m : Model) (w : World)
  (column : StatusColumn.t) (l : list_Model) :
at_index (Board.Columns (board m)) (focused m) = Some column ->
at_index (columns m) (focused m) = Some l ->
outcome w = None ->
let task := Task.mk (seq_tasks (db w) + 1) (Board.Id (board m)) (StatusColumn.Id column)
              title description 0 (clock w + 1) (clock w + 1) 1 None "" "" in
exists w',
  Lists.createTask title description m w
  = Some ((None,
           set_columns (set_index (columns m) (focused m)
                          (list_SetItems (task :: list_items l) l)) m), w')
  /\ tasks (db w') = tasks (db w) ++ [task]
  /\ seq_tasks (db w') = seq_tasks (db w) + 1.
Proof. apply Lists_createTask_succeeds. Qed.
End Patches.

(** ** The task table *)

Lemma In_insert_by {A} (le : A -> A -> bool) (x y : A) (l : list A) :
  In y (insert_by le x l) <-> y = x \/ In y l.
Proof.
  induction l as [|z l IH]; cbn.
  - intuition.
  - destruct (le x z); cbn; [intuition|]. rewrite IH. intuition.
Qed.

Lemma In_order_by {A} (le : A -> A -> bool) (y : A) (l : list A) :
  In y (order_by le l) <-> In y l.
Proof.
  unfold order_by. induction l as [|x l IH]; cbn; [reflexivity|].
  rewrite In_insert_by, IH. intuition.
Qed.

Lemma task_ids_update_rows (task : Task.t) (rows : list Task.t) :
  task_ids (TaskRepository.update_rows task rows) = task_ids rows.
Proof.
  unfold task_ids, TaskRepository.update_rows. rewrite List.map_map.
  apply List.map_ext. intros row. now destruct (Task.Id row =? Task.Id task).
Qed.

Lemma update_rows_unknown (task : Task.t) (rows : list Task.t) :
  ~ In (Task.Id task) (task_ids rows) -> TaskRepository.update_rows task rows = rows.
Proof.
  unfold task_ids, TaskRepository.update_rows. induction rows as [|row rows IH]; cbn.
  - reflexivity.
  - intros Hno. destruct (Z.eqb_spec (Task.Id row) (Task.Id task)) as [Heq|_].
    + exfalso. apply Hno. now left.
    + f_equal. apply IH. intros Hin. apply Hno. now right.
Qed.

Lemma delete_rows_unknown (id : Z) (rows : list Task.t) :
  ~ In id (task_ids rows) -> TaskRepository.delete_rows id rows = rows.
Proof.
  unfold task_ids, TaskRepository.delete_rows. induction rows as [|row rows IH]; cbn.
  - reflexivity.
  - intros Hno. destruct (Z.eqb_spec (Task.Id row) id) as [Heq|_].
    + exfalso. apply Hno. now left.
    + cbn. f_equal. apply IH. intros Hin. apply Hno. now right.
Qed.

Lemma set_tasks_same (s : Store) : set_tasks (tasks s) s = s.
Proof. now destruct s. Qed.

(** X9. [TaskRepository.Update] and [TaskRepository.Delete] on an
    identifier no row carries go through and return [nil] with the store
    exactly as it was: a missing row is not reported. *)
Theorem unknown_id_is_not_reported (task : Task.t) (w : World) :
  ~ In (Task.Id task) (task_ids (tasks (db w))) ->
  outcome w = None ->
  (exists task' w', TaskRepository.Update task w = Some ((None, task'), w')
                    /\ db w' = db w)
  /\ (exists w', TaskRepository.Delete (Task.Id task) w = Some (None, w')
                 /\ db w' = db w).
Proof.
  intros Hno Hok. split.
  - rewrite (Update_succeeds _ _ Hok). eexists _, _. split; [reflexivity|].
    cbn. rewrite update_rows_unknown by exact Hno. apply set_tasks_same.
  - rewrite (Delete_succeeds _ _ Hok). eexists. split; [reflexivity|].
    cbn. rewrite delete_rows_unknown by exact Hno. apply set_tasks_same.
Qed.

Lemma keys_sound_update (task : Task.t) (s : Store) :
  keys_sound s -> keys_sound (set_tasks (TaskRepository.update_rows task (tasks s)) s).
Proof. unfold keys_sound. cbn. now rewrite task_ids_update_rows. Qed.

Lemma keys_sound_delete (id : Z) (s : Store) :
  keys_sound s -> keys_sound (set_tasks (TaskRepository.delete_rows id (tasks s)) s).
Proof.
  unfold keys_sound, task_ids, TaskRepository.delete_rows. cbn. intros [Hnd Hle].
  induction (tasks s) as [|row rows IH]; cbn; [auto|].
  cbn in Hnd, Hle. apply NoDup_cons_iff in Hnd as [Hnotin Hnd].
  apply Forall_cons_iff in Hle as [Hrow Hle].
  destruct (IH Hnd Hle) as [IHnd IHle].
  destruct (negb (Task.Id row =? id)); cbn; [|auto].
  split; [|now constructor].
  apply List.NoDup_cons; [|exact IHnd].
  rewrite in_map_iff. intros (r & Hr & Hin). apply filter_In in Hin as [Hin _].
  apply Hnotin. rewrite in_map_iff. eauto.
Qed.

(** X10. The three writes of the task repository keep the primary key
    of the table: whatever the gateway answers, after [Create], [Update]
    or [Delete] no two rows share an identifier and none is past the
    counter; the row [Create] adds carries an identifier no row had. *)
Theorem task_writes_keep_keys_sound (task : Task.t) (w : World) :
  keys_sound (db w) ->
  (forall e row w', TaskRepository.Create task w = Some ((e, row), w') ->
     keys_sound (db w')
     /\ (e = None -> ~ In (Task.Id row) (task_ids (tasks (db w)))
                     /\ In row (tasks (db w'))))
  /\ (forall e task' w', TaskRepository.Update task w = Some ((e, task'), w') ->
        keys_sound (db w'))
  /\ (forall e w', TaskRepository.Delete (Task.Id task) w = Some (e, w') ->
        keys_sound (db w')).
Proof.
  intros Hks. split; [|split].
  - intros e row w'.
    unfold TaskRepository.Create, bind, time_Now, gateway, get_db, put_db, ret.
    cbn. destruct (hd None (faults w)); intros [= <- <- <-]; cbn;
      [split; [exact Hks|discriminate]|].
    destruct Hks as [Hnd Hle]. unfold keys_sound, task_ids in *. cbn.
    assert (Hfresh : ~ In (seq_tasks (db w) + 1) (List.map Task.Id (tasks (db w)))).
    { intros Hin. rewrite List.Forall_forall in Hle. specialize (Hle _ Hin). lia. }
    rewrite List.map_app. cbn. split; [split|].
    + apply List.NoDup_app;
        [exact Hnd|apply List.NoDup_cons; [intros []|apply List.NoDup_nil]|].
      intros id Hin [<-|[]]. exact (Hfresh Hin).
    + apply Forall_app. split; [|constructor; [lia|constructor]].
      eapply Forall_impl; [exact Hle|]. cbn. intros; lia.
    + intros _. split; [exact Hfresh|]. apply in_or_app. right. now left.
  - intros e task' w'. unfold TaskRepository.Update, bind, time_Now, gateway, get_db,
      put_db, ret. cbn. destruct (hd None (faults w)); intros [= <- <- <-]; cbn;
      [exact Hks|now apply keys_sound_update].
  - intros e w'. unfold TaskRepository.Delete, bind, gateway, get_db, put_db, ret.
    cbn. destruct (hd None (faults w)); intros [= <- <-]; cbn;
      [exact Hks|now apply keys_sound_delete].
Qed.

(** X11. A task created and then listed: when [TaskRepository.Create]
    goes through, [GetByColumnId] for the task's column returns the new
    row, with the identifier [Create] gave it, next to every row that was
    listed for that column before. *)
Theorem created_task_is_listed (task : Task.t) (w w1 : World) (row : Task.t) :
  TaskRepository.Create task w = Some ((None, row), w1) ->
  outcome w1 = None ->
  exists rows w2,
    TaskRepository.GetByColumnId (Task.StatusColumnId task) w1 = Some (inr rows, w2)
    /\ In row rows
    /\ Task.title row = Task.title task /\ Task.Priority row = Task.Priority task
    /\ Task.Id row = seq_tasks (db w) + 1
    /\ (forall old, In old (tasks (db w)) ->
          Task.StatusColumnId old = Task.StatusColumnId task -> In old rows).
Proof.
  unfold TaskRepository.Create, bind, time_Now, gateway, get_db, put_db, ret. cbn.
  destruct (hd None (faults w)) eqn:Hout; intros [= <- <-] Hok.
  unfold TaskRepository.GetByColumnId, bind, gateway, get_db, ret.
  unfold outcome in Hok. cbn in Hok. cbn. rewrite Hok.
  eexists _, _. split; [reflexivity|]. repeat split.
  - apply In_order_by. apply filter_In. split.
    + apply in_or_app. right. now left.
    + cbn. apply Z.eqb_refl.
  - intros old Hin Hcol. apply In_order_by. apply filter_In. split.
    + apply in_or_app. now left.
    + now apply Z.eqb_eq.
Qed.

(** ** [src/main.go]: the lists as views of the board *)

Lemma at_index_to_nat {A} (s : list A) (i : Z) (a : A) :
  at_index s i = Some a -> s !! Z.to_nat i = Some a.
Proof. unfold at_index. now destruct (i <? 0). Qed.

Lemma rebuild_lists_lookup (b : Board.t) (cw ch : Z) (cols : list StatusColumn.t)
    (ls : list list_Model) (n : nat) (column : StatusColumn.t) :
  length cols = length ls -> cols !! n = Some column ->
  exists l, WithBoard.rebuild_lists b cw ch cols ls !! n = Some l
            /\ list_Title l = StatusColumn.Name column
            /\ list_items l = Board.GetTasksByColumn (StatusColumn.Id column) b
            /\ list_width l = cw - 2 /\ list_height l = ch.
Proof.
  revert ls n. induction cols as [|c cols IH]; intros [|l0 ls] [|n]; cbn; try discriminate.
  - intros _ [= ->]. eexists. split; [reflexivity|].
    destruct (key (list_Title l0) (StatusColumn.Name column)) eqn:Hk; cbn; [|auto].
    apply String.eqb_eq in Hk. auto.
  - intros [= Hlen] Hn. now apply IH.
Qed.

Lemma length_rebuild_lists (b : Board.t) (cw ch : Z) (cols : list StatusColumn.t)
    (ls : list list_Model) :
  length (WithBoard.rebuild_lists b cw ch cols ls) = length ls.
Proof.
  revert ls. induction cols as [|c cols IH]; intros [|l ls]; cbn; auto.
Qed.

Lemma make_lists_named (b : Board.t) (cw ch : Z) (cols : list StatusColumn.t) :
  Forall (fun c => StatusColumn.Name c <> ""%string) cols ->
  exists ls, WithBoard.make_lists b cw ch cols = Some ls /\ length ls = length cols.
Proof.
  induction 1 as [|c cols Hc Hnamed IH]; [now exists []|].
  assert (Hk : key "" (StatusColumn.Name c) = false).
  { apply String.eqb_neq. intros Heq. now apply Hc. }
  destruct IH as (ls & Hls & Hlen).
  cbn -[key]. rewrite Hk, Hls. cbn -[key]. eexists. split; [reflexivity|].
  cbn. now rewrite Hlen.
Qed.

Lemma make_lists_lookup (b : Board.t) (cw ch : Z) (cols : list StatusColumn.t)
    (n : nat) (column : StatusColumn.t) :
  Forall (fun c => StatusColumn.Name c <> ""%string) cols ->
  cols !! n = Some column ->
  exists ls l, WithBoard.make_lists b cw ch cols = Some ls
               /\ length ls = length cols
               /\ ls !! n = Some l
               /\ list_Title l = StatusColumn.Name column
               /\ list_items l = Board.GetTasksByColumn (StatusColumn.Id column) b
               /\ list_width l = cw - 2 /\ list_height l = ch.
Proof.
  intros Hnamed. revert n.
  induction Hnamed as [|c cols Hc Hnamed IH]; intros n; [discriminate|].
  assert (Hk : key "" (StatusColumn.Name c) = false).
  { apply String.eqb_neq. intros Heq. now apply Hc. }
  destruct (make_lists_named b cw ch cols Hnamed) as (ls & Hls & Hlen).
  destruct n as [|n]; cbn -[key]; rewrite Hk; cbn -[key].
  - intros [= ->]. rewrite Hls. eexists _, _. split; [reflexivity|].
    cbn. rewrite Hlen. repeat split.
  - intros Hn. destruct (IH n Hn) as (ls' & l & Hls' & _ & Hl & Hrest).
    rewrite Hls in Hls'. injection Hls' as <-. rewrite Hls.
    eexists _, l. split; [reflexivity|]. cbn. rewrite Hlen. auto.
Qed.


(** X12. [rebuildColumns] of [src/main.go] on a board with columns,
    when the lists are there already or no column has the empty name:
    it returns with one list per column, and list [i] is the view of
    column [i]: titled with the column's name, holding the board's tasks
    of that column in board order, [width / columns - 2] wide and
    [height - 10] high. The board itself, the focus and the mode are not
    touched. *)
Theorem rebuildColumns_derives_the_views (width height : Z) (m : Model) (i : Z)
    (column : StatusColumn.t) :
  at_index (Board.Columns (board m)) i = Some column ->
  len (columns m) = len (Board.Columns (board m))
  \/ Forall (fun c => StatusColumn.Name c <> ""%string) (Board.Columns (board m)) ->
  exists m',
    WithBoard.rebuildColumns width height m = Some m'
    /\ len (columns m') = len (Board.Columns (board m))
    /\ board m' = board m /\ focused m' = focused m /\ mode m' = mode m
    /\ exists l, at_index (columns m') i = Some l
                 /\ list_Title l = StatusColumn.Name column
                 /\ list_items l = Board.GetTasksByColumn (StatusColumn.Id column) (board m)
                 /\ list_width l = Z.quot width (len (Board.Columns (board m))) - 2
                 /\ list_height l = height - 10.
Proof.
  intros Hc Hsafe. pose proof (at_index_bounds _ _ _ Hc) as Hb.
  unfold WithBoard.rebuildColumns.
  destruct (Z.eqb_spec (len (Board.Columns (board m))) 0) as [Hz|_]; [lia|].
  apply at_index_to_nat in Hc.
  destruct (Z.eqb_spec (len (columns m)) (len (Board.Columns (board m)))) as [Hlen|Hdiff];
    cbn [negb].
  - eexists. split; [reflexivity|]. cbn [columns board focused mode set_columns].
    split; [unfold len in *; rewrite length_rebuild_lists; lia|]. repeat split.
    assert (Hlen' : length (Board.Columns (board m)) = length (columns m))
      by (unfold len in Hlen; lia).
    destruct (rebuild_lists_lookup (board m)
                (Z.quot width (len (Board.Columns (board m)))) (height - 10)
                _ (columns m) _ column Hlen' Hc)
      as (l & Hl & Hrest).
    exists l. split; [|exact Hrest].
    unfold at_index. destruct (Z.ltb_spec i 0); [lia|exact Hl].
  - destruct Hsafe as [Heq|Hnamed]; [contradiction|].
    destruct (make_lists_lookup (board m)
                (Z.quot width (len (Board.Columns (board m)))) (height - 10)
                _ _ column Hnamed Hc) as (ls & l & -> & Hlen & Hl & Hrest).
    eexists. split; [reflexivity|]. cbn [columns board focused mode set_columns].
    split; [unfold len; now rewrite Hlen|]. repeat split.
    exists l. split; [|exact Hrest].
    unfold at_index. destruct (Z.ltb_spec i 0); [lia|exact Hl].
Qed.


(** ** [part_000]: start-up *)

Lemma length_insert_by {A} (le : A -> A -> bool) (x : A) (l : list A) :
  length (insert_by le x l) = S (length l).
Proof. induction l as [|y l IH]; cbn; [reflexivity|]. destruct (le x y); cbn; auto. Qed.

Lemma length_order_by {A} (le : A -> A -> bool) (l : list A) :
  length (order_by le l) = length l.
Proof.
  unfold order_by. induction l as [|x l IH]; cbn; [reflexivity|].
  now rewrite length_insert_by, IH.
Qed.

Lemma GetByColumnId_runs (columnId : Z) (w : World) :
  exists r w', TaskRepository.GetByColumnId columnId w = Some (r, w').
Proof.
  unfold TaskRepository.GetByColumnId, bind, gateway, get_db, ret.
  destruct (hd None (faults w)); eauto.
Qed.

Section StartUp.
Context `{Widgets}.

Lemma init_lists_runs (cols : list StatusColumn.t) (i : Z) (ls : list list_Model) (w : World) :
exists e ls' w', Lists.init_lists i cols ls w = Some ((e, ls'), w')
                 /\ length ls' = length ls.
Proof.
revert i ls w. induction cols as [|c cols IH]; intros i ls w; cbn.
- eexists _, _, _. split; reflexivity.
- unfold bind. destruct (GetByColumnId_runs (StatusColumn.Id c) w) as (r & w1 & ->).
  destruct r as [e|rows].
  + eexists _, _, _. split; reflexivity.
  + destruct (IH (i + 1) (set_index ls i
                (list_set_Title (StatusColumn.Name c) (list_New rows 0 0))) w1)
      as (e & ls' & w' & -> & Hlen).
    eexists _, _, _. split; [reflexivity|].
    rewrite Hlen. unfold set_index. apply length_insert.
Qed.

Lemma initColumnsFromDB_runs (m : Model) (w : World) :
columns m = [] ->
exists e m' w',
  Lists.initColumnsFromDB m w = Some ((e, m'), w')
  /\ board m' = board m /\ focused m' = focused m /\ mode m' = mode m
  /\ err m' = err m
  /\ len (Board.Columns (board m')) = len (columns m').
Proof.
intros Hnone. unfold Lists.initColumnsFromDB.
destruct (Z.eqb_spec (len (Board.Columns (board m))) 0) as [Hz|Hnz].
- eexists _, _, _. split; [reflexivity|]. repeat split. rewrite Hnone. exact Hz.
- unfold bind.
  destruct (init_lists_runs (Board.Columns (board m)) 0
              (List.map (fun _ => mk_list "" [] 0 false 0 0) (Board.Columns (board m))) w)
    as (e & ls' & w' & -> & Hlen).
  eexists _, _, _. split; [reflexivity|]. repeat split.
  cbn. unfold len. rewrite Hlen, List.length_map. reflexivity.
Qed.

Lemma loadBoard_runs (m : Model) (w : World) :
exists e m' w',
  Lists.loadBoard m w = Some ((e, m'), w')
  /\ columns m' = columns m /\ focused m' = focused m /\ mode m' = mode m
  /\ err m' = err m
  /\ (e <> None -> m' = m).
Proof.
unfold Lists.loadBoard, BoardRepository.GetAll, bind, gateway, get_db, ret.
destruct (hd None (faults w)) as [e|]; cbn.
{ eexists _, _, _. split; [reflexivity|]. repeat split. }
set (bs := order_by _ (boards (db w))).
destruct (Z.eqb_spec (len bs) 0) as [Hz|Hnz].
- unfold BoardRepository.Create, bind, time_Now, gateway, get_db, put_db, ret. cbn.
  destruct (hd None (tl (faults w))) as [e|]; cbn.
  { eexists _, _, _. split; [reflexivity|]. repeat split. }
  unfold StatusColumnRepository.Create, StatusColumnRepository.GetByBoardId,
    bind, gateway, get_db, put_db, ret. cbn.
  repeat match goal with
         | |- context [hd None ?fs] => destruct (hd None fs); cbn
         end;
    eexists _, _, _; (split; [reflexivity|]); repeat split; intros Hne; congruence.
- destruct (at_index_Some bs 0) as [b0 Hb0]; [unfold len in *; lia|].
  unfold index. rewrite Hb0. cbn.
  unfold BoardRepository_GetById, StatusColumnRepository.GetByBoardId,
    TaskRepository.GetByBoardId, bind, gateway, get_db, ret. cbn.
  destruct (hd None (tl (faults w))); cbn;
    [eexists _, _, _; (split; [reflexivity|]); repeat split|].
  destruct (List.find _ (boards (db w))); cbn;
    [|eexists _, _, _; (split; [reflexivity|]); repeat split].
  repeat match goal with
         | |- context [hd None ?fs] => destruct (hd None fs); cbn
         end;
    eexists _, _, _; (split; [reflexivity|]); repeat split; intros Hne; congruence.
Qed.

(** X14. [NewModel] of [part_000] always returns, whatever the store
  holds and whatever the gateway answers: a model in [Normal] mode with
  focus 0 and exactly one list per column of the board it loaded (none
  when loading failed). *)
Theorem part_000_NewModel_returns (w : World) :
exists m w',
  Lists.NewModel w = Some (m, w')
  /\ mode m = Normal /\ focused m = 0
  /\ len (Board.Columns (board m)) = len (columns m).
Proof.
unfold Lists.NewModel, bind.
destruct (loadBoard_runs initial_Model w) as (e & m1 & w1 & -> & Hc & Hf & Hm & He & Hsame).
destruct e as [e|].
- rewrite (Hsame ltac:(discriminate)). cbn. eexists _, _. split; [reflexivity|].
  repeat split.
- rewrite He. cbn.
  destruct (initColumnsFromDB_runs m1 w1 Hc) as (e2 & m2 & w2 & -> & Hb & Hf2 & Hm2 & _ & Hlen).
  destruct e2; eexists _, _; (split; [reflexivity|]); cbn; rewrite Hm2, Hf2, Hm, Hf; auto.
Qed.
End StartUp.


Lemma all_succeed_tl (fs : list error) :
  Forall (fun f => f = None) fs -> hd None fs = None /\ Forall (fun f => f = None) (tl fs).
Proof.
  destruct fs as [|f fs]; cbn; [auto|]. intros Hall.
  split; [now apply Forall_inv in Hall|now apply Forall_inv_tail in Hall].
Qed.

Lemma filter_none {A} (p : A -> bool) (l : list A) :
  (forall a, In a l -> p a = false) -> List.filter p l = [].
Proof.
  induction l as [|a l IH]; cbn; [reflexivity|]. intros Hall.
  rewrite (Hall a) by now left. apply IH. intros b Hb. apply Hall. now right.
Qed.

Section Bootstrap.
Context `{Widgets}.

(** X15. [loadBoard] of [part_000] on a store without boards, every
  gateway call going through: the store gets one board row and, after
  the column rows it had, the three default columns with the next three
  identifiers; the board kept in memory is that board with these three
  columns in the order "To Do", "In Progress", "Done" (positions 0, 1,
  2) and no task; the task table is not touched. *)
Theorem part_000_loadBoard_bootstraps (m : Model) (w : World) :
boards (db w) = [] ->
all_succeed w ->
(forall c, In c (status_columns (db w)) ->
   StatusColumn.BoardId c <> seq_boards (db w) + 1) ->
let id := seq_boards (db w) + 1 in
let cols := [ StatusColumn.mk (seq_columns (db w) + 1) id "To Do" 0 "#ff6b6b";
              StatusColumn.mk (seq_columns (db w) + 1 + 1) id "In Progress" 1 "#4ecdc4";
              StatusColumn.mk (seq_columns (db w) + 1 + 1 + 1) id "Done" 2 "#45b7d1" ] in
let row := Board.mk id "My Kanban Board" "Default board" (clock w) (clock w) [] [] in
exists m' w',
  Lists.loadBoard m w = Some ((None, m'), w')
  /\ board m' = Board.set_Columns cols row
  /\ columns m' = columns m /\ focused m' = focused m
  /\ boards (db w') = [row]
  /\ status_columns (db w') = status_columns (db w) ++ cols
  /\ tasks (db w') = tasks (db w).
Proof.
intros Hnone Hall Horphan id cols row.
unfold all_succeed in Hall.
destruct (all_succeed_tl _ Hall) as [H0 Hall1].
destruct (all_succeed_tl _ Hall1) as [H1 Hall2].
destruct (all_succeed_tl _ Hall2) as [H2 Hall3].
destruct (all_succeed_tl _ Hall3) as [H3 Hall4].
destruct (all_succeed_tl _ Hall4) as [H4 Hall5].
destruct (all_succeed_tl _ Hall5) as [H5 _].
assert (Hold : List.filter (fun c => StatusColumn.BoardId c =? id) (status_columns (db w))
               = []).
{ apply filter_none. intros c Hc. apply Z.eqb_neq. now apply Horphan. }
unfold Lists.loadBoard, BoardRepository.GetAll, bind, gateway, get_db, ret.
rewrite H0. cbn. rewrite Hnone. unfold len. cbn.
change (Z.of_nat 0 =? 0) with true. cbn beta iota.
unfold BoardRepository.Create, bind, time_Now, gateway, get_db, put_db, ret. cbn.
rewrite H1. cbn.
unfold StatusColumnRepository.Create, StatusColumnRepository.GetByBoardId,
  bind, gateway, get_db, put_db, ret. cbn.
rewrite H2. cbn. rewrite H3. cbn. rewrite H4. cbn. rewrite H5. cbn.
eexists _, _. split; [reflexivity|].
subst id cols row. cbn [board set_board db boards status_columns tasks columns focused].
split; [|split; [reflexivity|split; [reflexivity|split; [|split; [|reflexivity]]]]].
- rewrite !List.filter_app, Hold. cbn [List.filter StatusColumn.BoardId app].
  rewrite Z.eqb_refl. reflexivity.
- rewrite Hnone. reflexivity.
- rewrite <- !app_assoc. reflexivity.
Qed.

End Bootstrap.

(** ** Columns referenced by tasks, and the form *)

Lemma GetColumnById_member (c : StatusColumn.t) (b : Board.t) :
  In c (Board.Columns b) ->
  exists c', Board.GetColumnById (StatusColumn.Id c) b = Some c'
             /\ In c' (Board.Columns b) /\ StatusColumn.Id c' = StatusColumn.Id c.
Proof.
  unfold Board.GetColumnById. induction (Board.Columns b) as [|c0 cols IH]; cbn; [intros []|].
  destruct (Z.eqb_spec (StatusColumn.Id c0) (StatusColumn.Id c)) as [Heq|Hne].
  - intros _. exists c0. auto.
  - intros [->|Hin]; [contradiction|].
    destruct (IH Hin) as (c' & Hfind & Hin' & Hid). exists c'. auto.
Qed.

Lemma at_index_In {A} (s : list A) (i : Z) (a : A) : at_index s i = Some a -> In a s.
Proof.
  intros Hl. apply at_index_to_nat in Hl. apply list_elem_of_lookup_2 in Hl.
  now apply list_elem_of_In.
Qed.

Section References.
Context `{Widgets}.

(** X17. The column identifier [part_000] writes with a task belongs to
  a column of the board: for the task [createTask] makes with the focus
  on a column, and for the task a move hands to the store,
  [GetStatusColumn] finds a column of the board carrying that
  identifier. *)
Theorem written_tasks_reference_a_column (m : Model) (w : World) (task : Task.t)
  (dir : Z) (column : StatusColumn.t) (title description : string) :
at_index (Board.Columns (board m)) (focused m + dir) = Some column ->
outcome w = None ->
(forall l, dir = 0 -> at_index (columns m) (focused m) = Some l ->
   exists r w' row c,
     Lists.createTask title description m w = Some (r, w')
     /\ tasks (db w') = tasks (db w) ++ [row]
     /\ Task_GetStatusColumn row (board m) = Some c
     /\ In c (Board.Columns (board m))
     /\ StatusColumn.Id c = Task.StatusColumnId row)
/\ (forall l l', getSelectedTask m = Some task ->
      at_index (columns m) (focused m) = Some l ->
      at_index (set_index (columns m) (focused m) (list_RemoveItem (list_Index l) l))
        (focused m + dir) = Some l' ->
      exists r w' task' c,
        Lists.move_task dir m w = Some (r, w')
        /\ tasks (db w') = TaskRepository.update_rows task' (tasks (db w))
        /\ Task_GetStatusColumn task' (board m) = Some c
        /\ In c (Board.Columns (board m))
        /\ StatusColumn.Id c = Task.StatusColumnId task').
Proof.
intros Hc Hok.
destruct (GetColumnById_member column (board m) (at_index_In _ _ _ Hc))
  as (c & Hfind & Hin & Hid).
split.
- intros l -> Hl. rewrite Z.add_0_r in Hc.
  destruct (Lists_createTask_succeeds title description m w column l Hc Hl Hok)
    as (w' & Hrun & Hrows & _).
  eexists _, w', _, c. split; [exact Hrun|]. split; [exact Hrows|]. auto.
- intros l l' Hsel Hl Hl'.
  rewrite (Lists_move_succeeds dir m w task column l l' Hsel Hc Hl Hl' Hok).
  eexists _, _, _, c. split; [reflexivity|]. split; [reflexivity|]. auto.
Qed.

(** X19. [esc] leaves the form without clearing it: in each of the
  three revisions, when the form is left with [esc] and opened again
  with [i] (the focused list not being in filter entry), the controller
  is in [Insert] mode and both fields still hold the text they held. *)
Theorem esc_keeps_the_text (m : Model) (w : World) (l : list_Model) :
at_index (columns m) (focused m) = Some l ->
list_SettingFilter l = false ->
text_kept (leave_and_reopen WithBoard.handleInsert WithBoard.handleNormal) m w
/\ text_kept (leave_and_reopen WithEdit.handleInsert WithEdit.handleNormal) m w
/\ text_kept (leave_and_reopen ListsOnly.handleInsert ListsOnly.handleNormal) m w.
Proof.
intros Hl Hfilter.
unfold text_kept, leave_and_reopen, WithBoard.handleInsert, WithEdit.handleInsert,
  ListsOnly.handleInsert, WithBoard.handleNormal, WithEdit.handleNormal,
  ListsOnly.handleNormal; cbn.
unfold bind, index; cbn. rewrite Hl; cbn. rewrite Hfilter; cbn.
repeat split; eexists; repeat split.
Qed.
End References.

(** ** Worked instances of the further properties *)

Lemma failed_delete_changes_nothing_witness :
  rolls_back (WithBoard.handleNormal (H := typing_widgets)) "d"
    selected_model (failing "database is locked" one_task_world) "database is locked"
  /\ rolls_back (WithEdit.handleNormal (H := typing_widgets)) "d"
       selected_model (failing "database is locked" one_task_world) "database is locked"
  /\ rolls_back (ListsOnly.handleNormal (H := typing_widgets)) "d"
       selected_model (failing "database is locked" one_task_world) "database is locked".
Proof.
  apply (failed_delete_changes_nothing (H := typing_widgets) selected_model
           (failing "database is locked" one_task_world) "database is locked" selected_task).
  - vm_compute. reflexivity.
  - vm_compute. reflexivity.
Defined.

Lemma nothing_selected_nothing_done_witness :
  ignored (WithBoard.handleNormal (H := typing_widgets)) "d" start_model start_world
  /\ ignored (WithEdit.handleNormal (H := typing_widgets)) "d" start_model start_world
  /\ ignored (ListsOnly.handleNormal (H := typing_widgets)) "d" start_model start_world
  /\ ignored (WithEdit.handleNormal (H := typing_widgets)) "e" start_model start_world.
Proof.
  apply (nothing_selected_nothing_done (H := typing_widgets) start_model start_world "d").
  - vm_compute. reflexivity.
  - right. right. reflexivity.
Defined.

Lemma failed_create_changes_nothing_witness :
  refused (WithBoard.handleInsert (H := typing_widgets)) typed_model
    (failing "database is locked" start_world) "database is locked"
  /\ refused (WithEdit.handleInsert (H := typing_widgets)) typed_model
       (failing "database is locked" start_world) "database is locked"
  /\ refused (ListsOnly.handleInsert (H := typing_widgets)) typed_model
       (failing "database is locked" start_world) "database is locked".
Proof.
  apply (failed_create_changes_nothing (H := typing_widgets) typed_model
           (failing "database is locked" start_world) "database is locked"
           (StatusColumn.mk 1 1 "To Do" 0 "#ff6b6b")).
  - vm_compute. reflexivity.
  - vm_compute. discriminate.
  - vm_compute. reflexivity.
  - vm_compute. discriminate.
  - vm_compute. reflexivity.
Defined.

Lemma no_columns_no_task_witness :
  WithBoard.handleInsert (H := typing_widgets) "enter" no_columns_model fresh_world
  = Some ((set_err (Some "no columns available"%string) no_columns_model, Cmd_nil),
          fresh_world)
  /\ WithEdit.handleInsert (H := typing_widgets) "enter" no_columns_model fresh_world
     = Some ((set_err (Some "no columns available"%string) no_columns_model, Cmd_nil),
             fresh_world)
  /\ ListsOnly.handleInsert (H := typing_widgets) "enter" no_columns_model fresh_world
     = Some ((set_err (Some "no columns available"%string) no_columns_model, Cmd_nil),
             fresh_world).
Proof.
  apply (no_columns_no_task (H := typing_widgets) no_columns_model fresh_world).
  - vm_compute. reflexivity.
  - vm_compute. discriminate.
  - vm_compute. reflexivity.
Defined.

Lemma only_enter_submits_witness :
  touches_the_form_only (WithBoard.handleInsert (H := typing_widgets)) "tab"
    typed_model start_world
  /\ touches_the_form_only (WithEdit.handleInsert (H := typing_widgets)) "tab"
       typed_model start_world
  /\ touches_the_form_only (ListsOnly.handleInsert (H := typing_widgets)) "tab"
       typed_model start_world.
Proof.
  apply (only_enter_submits (H := typing_widgets) "tab" typed_model start_world).
  vm_compute. discriminate.
Defined.

Lemma part_000_normal_keys_keep_well_formed_witness :
  (exists m' cmd w',
     WithEdit.handleNormal (H := typing_widgets) "<" selected_model one_task_world
     = Some ((m', cmd), w')
     /\ board m' = board selected_model /\ well_formed m')
  /\ (exists m' cmd w',
        ListsOnly.handleNormal (H := typing_widgets) "<" selected_model one_task_world
        = Some ((m', cmd), w')
        /\ board m' = board selected_model /\ well_formed m').
Proof.
  apply (part_000_normal_keys_keep_well_formed (H := typing_widgets) "<"
           selected_model one_task_world).
  vm_compute. repeat split; (reflexivity || discriminate).
Defined.

Lemma part_000_createTask_in_focus_witness :
  exists r w',
    Lists.createTask "a" "" start_model start_world = Some (r, w')
    /\ seq_tasks (db w') = seq_tasks (db start_world) + 1.
Proof.
  destruct (part_000_createTask_in_focus "a" "" start_model start_world
              (StatusColumn.mk 1 1 "To Do" 0 "#ff6b6b")
              (mk_list "To Do" [] 0 false 0 0))
    as (w' & Hrun & _ & Hseq).
  - vm_compute. reflexivity.
  - vm_compute. reflexivity.
  - vm_compute. reflexivity.
  - eexists _, w'. split; [exact Hrun|exact Hseq].
Defined.

Lemma unknown_id_is_not_reported_witness :
  (exists task' w', TaskRepository.Update Task.zero one_task_world = Some ((None, task'), w')
                    /\ db w' = db one_task_world)
  /\ (exists w', TaskRepository.Delete (Task.Id Task.zero) one_task_world = Some (None, w')
                 /\ db w' = db one_task_world).
Proof.
  apply (unknown_id_is_not_reported Task.zero one_task_world).
  - vm_compute. intros [Heq|[]]. discriminate Heq.
  - vm_compute. reflexivity.
Defined.

Lemma task_writes_keep_keys_sound_witness : keys_sound (db created_world).
Proof.
  refine (proj1 (proj1 (task_writes_keep_keys_sound Task.zero one_task_world _)
                   None created_row created_world _)).
  - vm_compute. split.
    + apply List.NoDup_cons; [intros []|apply List.NoDup_nil].
    + repeat constructor. discriminate.
  - vm_compute. reflexivity.
Defined.

Lemma created_task_is_listed_witness :
  exists rows w2,
    TaskRepository.GetByColumnId (Task.StatusColumnId Task.zero) created_world
    = Some (inr rows, w2)
    /\ In created_row rows.
Proof.
  destruct (created_task_is_listed Task.zero one_task_world created_world created_row)
    as (rows & w2 & Hrun & Hin & _).
  - vm_compute. reflexivity.
  - vm_compute. reflexivity.
  - exists rows, w2. split; [exact Hrun|exact Hin].
Defined.

Lemma rebuildColumns_derives_the_views_witness :
  exists m',
    WithBoard.rebuildColumns 80 24 main_model = Some m'
    /\ len (columns m') = len (Board.Columns (board main_model)).
Proof.
  destruct (rebuildColumns_derives_the_views 80 24 main_model 1
              (StatusColumn.mk 2 1 "In Progress" 1 "#4ecdc4"))
    as (m' & Hrun & Hlen & _).
  - vm_compute. reflexivity.
  - left. vm_compute. reflexivity.
  - exists m'. split; [exact Hrun|exact Hlen].
Defined.


Lemma part_000_loadBoard_bootstraps_witness :
  exists m' w',
    Lists.loadBoard initial_Model fresh_world = Some ((None, m'), w')
    /\ names_positions (Board.Columns (board m'))
       = [("To Do", 0); ("In Progress", 1); ("Done", 2)]%string.
Proof.
  destruct (part_000_loadBoard_bootstraps initial_Model fresh_world)
    as (m' & w' & Hrun & Hboard & _).
  - reflexivity.
  - constructor.
  - intros c [].
  - exists m', w'. split; [exact Hrun|]. rewrite Hboard. reflexivity.
Defined.


Lemma written_tasks_reference_a_column_witness :
  exists r w' row c,
    Lists.createTask "a" "" start_model start_world = Some (r, w')
    /\ tasks (db w') = tasks (db start_world) ++ [row]
    /\ Task_GetStatusColumn row (board start_model) = Some c
    /\ In c (Board.Columns (board start_model))
    /\ StatusColumn.Id c = Task.StatusColumnId row.
Proof.
  apply (proj1 (written_tasks_reference_a_column start_model start_world Task.zero 0
                  (StatusColumn.mk 1 1 "To Do" 0 "#ff6b6b") "a" ""
                  ltac:(vm_compute; reflexivity) ltac:(vm_compute; reflexivity))
           (mk_list "To Do" [] 0 false 0 0)).
  - reflexivity.
  - vm_compute. reflexivity.
Defined.

Lemma esc_keeps_the_text_witness :
  text_kept (leave_and_reopen (WithBoard.handleInsert (H := typing_widgets))
               (WithBoard.handleNormal (H := typing_widgets))) typed_model start_world
  /\ text_kept (leave_and_reopen (WithEdit.handleInsert (H := typing_widgets))
                  (WithEdit.handleNormal (H := typing_widgets))) typed_model start_world
  /\ text_kept (leave_and_reopen (ListsOnly.handleInsert (H := typing_widgets))
                  (ListsOnly.handleNormal (H := typing_widgets))) typed_model start_world.
Proof.
  apply (esc_keeps_the_text (H := typing_widgets) typed_model start_world
           (mk_list "In Progress" [] 0 false 0 0)).
  - vm_compute. reflexivity.
  - reflexivity.
Defined.
